(** * Verification of the credential and session store ([auth.py])

    A shallow embedding of [AuthManager] (users.json / sessions.json,
    password hashing, client identifiers, 24-hour sessions) together with
    the library functions it calls: [hashlib.md5], [hashlib.sha256],
    [uuid.uuid4], and the parts of [datetime] it uses; of the page
    functions of the same file (login and registration forms,
    [check_authentication], logout) with [main_app.main]; and of the
    grouping of stored reports by client identifier.

    Conventions.
    - A Python [str] is represented by the [string] of its UTF-8 bytes, so
      that [s.encode()] is the byte sequence of the representation.
    - Machine words are [Z] with the wrap-around written out.
    - A JSON file holds the dictionary last dumped into it ([json.load]
      after [json.dump] is the identity on dictionaries of string-valued
      records); the two files are written by this class only, so a stored
      dictionary has the record shape the class writes.
    - [datetime.now()] and [os.urandom] read the world: a clock and an
      entropy source, each a sequence of readings with a position.
    - A call may raise; what it leaves on disk is observable either way. *)

From Stdlib Require Import ZArith List String Ascii Lia Bool.
From stdpp Require Import base option gmap strings.
Import ListNotations.

Local Open Scope Z_scope.

(* ===================================================================== *)
(** ** Bytes, words and hexadecimal text *)
(* ===================================================================== *)

Module Bytes.

(** [s.encode()]: the bytes of a string, each as a number in [0, 256). *)
Definition encode (s : string) : list Z :=
  map (fun c => Z.of_N (N_of_ascii c)) (list_ascii_of_string s).

(** [n] bytes of [x], least significant first. *)
Fixpoint le_bytes (n : nat) (x : Z) : list Z :=
  match n with
  | O => []
  | S k => x mod 256 :: le_bytes k (x / 256)
  end.

(** [n] bytes of [x], most significant first. *)
Definition be_bytes (n : nat) (x : Z) : list Z := rev (le_bytes n x).

(** The number whose little-endian bytes are [bs]. *)
Fixpoint le_word (bs : list Z) : Z :=
  match bs with
  | [] => 0
  | b :: r => b + 256 * le_word r
  end.

Definition be_word (bs : list Z) : Z := le_word (rev bs).

(** The first [k] consecutive slices of [sz] elements of [l]. *)
Fixpoint slices {A} (sz k : nat) (l : list A) : list (list A) :=
  match k with
  | O => []
  | S k' => firstn sz l :: slices sz k' (skipn sz l)
  end.

(** A padded message cut into 64-byte blocks. *)
Definition blocks (l : list Z) : list (list Z) :=
  slices 64 (Nat.div (length l) 64) l.

(** The words of one block, [wsz] bytes each, decoded by [dec]. *)
Definition words (dec : list Z -> Z) (block : list Z) : list Z :=
  map dec (slices 4 16 block).

Definition hex_alphabet : string := "0123456789abcdef".

(** The lower-case hexadecimal digit of [d mod 16]. *)
Definition hex_digit (d : Z) : ascii :=
  match String.get (Z.to_nat (d mod 16)) hex_alphabet with
  | Some c => c
  | None => "0"%char
  end.

Definition hex_byte (b : Z) : list ascii := [hex_digit (b / 16); hex_digit b].

(** [bytes.hex()]: two lower-case digits per byte. *)
Definition hexlify (bs : list Z) : string :=
  string_of_list_ascii (flat_map hex_byte bs).

Definition mask32 (x : Z) : Z := x mod 2 ^ 32.

Definition lnot32 (x : Z) : Z := Z.lxor x 0xffffffff.

Definition rotl32 (x c : Z) : Z :=
  mask32 (Z.lor (Z.shiftl x c) (Z.shiftr x (32 - c))).

Definition rotr32 (x c : Z) : Z := rotl32 x (32 - c).

End Bytes.

(* ===================================================================== *)
(** ** [hashlib.md5] (RFC 1321) *)
(* ===================================================================== *)

Module MD5.
Import Bytes.

Definition shifts : list Z :=
  [7; 12; 17; 22; 7; 12; 17; 22; 7; 12; 17; 22; 7; 12; 17; 22;
   5; 9; 14; 20; 5; 9; 14; 20; 5; 9; 14; 20; 5; 9; 14; 20;
   4; 11; 16; 23; 4; 11; 16; 23; 4; 11; 16; 23; 4; 11; 16; 23;
   6; 10; 15; 21; 6; 10; 15; 21; 6; 10; 15; 21; 6; 10; 15; 21].

Definition sines : list Z :=
  [0xd76aa478; 0xe8c7b756; 0x242070db; 0xc1bdceee;
   0xf57c0faf; 0x4787c62a; 0xa8304613; 0xfd469501;
   0x698098d8; 0x8b44f7af; 0xffff5bb1; 0x895cd7be;
   0x6b901122; 0xfd987193; 0xa679438e; 0x49b40821;
   0xf61e2562; 0xc040b340; 0x265e5a51; 0xe9b6c7aa;
   0xd62f105d; 0x02441453; 0xd8a1e681; 0xe7d3fbc8;
   0x21e1cde6; 0xc33707d6; 0xf4d50d87; 0x455a14ed;
   0xa9e3e905; 0xfcefa3f8; 0x676f02d9; 0x8d2a4c8a;
   0xfffa3942; 0x8771f681; 0x6d9d6122; 0xfde5380c;
   0xa4beea44; 0x4bdecfa9; 0xf6bb4b60; 0xbebfbc70;
   0x289b7ec6; 0xeaa127fa; 0xd4ef3085; 0x04881d05;
   0xd9d4d039; 0xe6db99e5; 0x1fa27cf8; 0xc4ac5665;
   0xf4292244; 0x432aff97; 0xab9423a7; 0xfc93a039;
   0x655b59c3; 0x8f0ccc92; 0xffeff47d; 0x85845dd1;
   0x6fa87e4f; 0xfe2ce6e0; 0xa3014314; 0x4e0811a1;
   0xf7537e82; 0xbd3af235; 0x2ad7d2bb; 0xeb86d391].

Definition state : Type := Z * Z * Z * Z.

Definition init : state := (0x67452301, 0xefcdab89, 0x98badcfe, 0x10325476).

(** Message, one [0x80] byte, zeros up to 56 modulo 64, and the bit length
    on 8 little-endian bytes. *)
Definition pad (msg : list Z) : list Z :=
  let n := Z.of_nat (length msg) in
  msg ++ [0x80] ++ repeat 0 (Z.to_nat ((55 - n) mod 64)) ++ le_bytes 8 (8 * n).

Definition step (M : list Z) (st : state) (i : nat) : state :=
  let '(A, B, C, D) := st in
  let iz := Z.of_nat i in
  let '(F, g) :=
    if iz <? 16 then (Z.lor (Z.land B C) (Z.land (lnot32 B) D), iz)
    else if iz <? 32 then
      (Z.lor (Z.land D B) (Z.land (lnot32 D) C), (5 * iz + 1) mod 16)
    else if iz <? 48 then (Z.lxor (Z.lxor B C) D, (3 * iz + 5) mod 16)
    else (Z.lxor C (Z.lor B (lnot32 D)), (7 * iz) mod 16) in
  let F' := mask32 (F + A + nth i sines 0 + nth (Z.to_nat g) M 0) in
  (D, mask32 (B + rotl32 F' (nth i shifts 0)), B, C).

Definition compress (st : state) (block : list Z) : state :=
  let M := words le_word block in
  let '(a0, b0, c0, d0) := st in
  let '(A, B, C, D) := fold_left (step M) (seq 0 64) st in
  (mask32 (a0 + A), mask32 (b0 + B), mask32 (c0 + C), mask32 (d0 + D)).

Definition serialise (st : state) : list Z :=
  let '(a, b, c, d) := st in flat_map (le_bytes 4) [a; b; c; d].

Definition digest (msg : list Z) : list Z :=
  serialise (fold_left compress (blocks (pad msg)) init).

(** [hashlib.md5(s.encode()).hexdigest()] *)
Definition hexdigest (s : string) : string := hexlify (digest (encode s)).

End MD5.

(* ===================================================================== *)
(** ** [hashlib.sha256] (FIPS 180-4) *)
(* ===================================================================== *)

Module SHA256.
Import Bytes.

(** The largest [r] below [2 ^ b] with [r ^ e <= n], built bit by bit. *)
Fixpoint floor_root (e n : Z) (b : nat) (r : Z) : Z :=
  match b with
  | O => r
  | S b' =>
      let c := r + 2 ^ Z.of_nat b' in
      floor_root e n b' (if c ^ e <=? n then c else r)
  end.

Definition is_prime (n : nat) : bool :=
  forallb (fun d => negb (Nat.eqb (Nat.modulo n d) 0)) (seq 2 (n - 2)).

(** The first 64 primes: 2, 3, 5, ..., 311. *)
Definition primes : list Z :=
  Eval vm_compute in map Z.of_nat (filter is_prime (seq 2 310)).

(** The round constants: the first 32 bits of the fractional parts of the
    cube roots of the first 64 primes. *)
Definition cube_roots : list Z :=
  Eval vm_compute in
    map (fun q => mask32 (floor_root 3 (q * 2 ^ 96) 40 0)) primes.

(** The initial hash value: the first 32 bits of the fractional parts of
    the square roots of the first 8 primes. *)
Definition init : list Z :=
  Eval vm_compute in
    map (fun q => mask32 (floor_root 2 (q * 2 ^ 64) 40 0)) (firstn 8 primes).

(** Message, one [0x80] byte, zeros up to 56 modulo 64, and the bit length
    on 8 big-endian bytes. *)
Definition pad (msg : list Z) : list Z :=
  let n := Z.of_nat (length msg) in
  msg ++ [0x80] ++ repeat 0 (Z.to_nat ((55 - n) mod 64)) ++ be_bytes 8 (8 * n).

Definition sigma0 (x : Z) : Z :=
  Z.lxor (Z.lxor (rotr32 x 7) (rotr32 x 18)) (Z.shiftr x 3).
Definition sigma1 (x : Z) : Z :=
  Z.lxor (Z.lxor (rotr32 x 17) (rotr32 x 19)) (Z.shiftr x 10).
Definition Sigma0 (x : Z) : Z :=
  Z.lxor (Z.lxor (rotr32 x 2) (rotr32 x 13)) (rotr32 x 22).
Definition Sigma1 (x : Z) : Z :=
  Z.lxor (Z.lxor (rotr32 x 6) (rotr32 x 11)) (rotr32 x 25).
Definition Ch (x y z : Z) : Z :=
  Z.lxor (Z.land x y) (Z.land (lnot32 x) z).
Definition Maj (x y z : Z) : Z :=
  Z.lxor (Z.lxor (Z.land x y) (Z.land x z)) (Z.land y z).

(** The message schedule: [W] holds the words computed so far; word [t]
    is appended for t = 16 .. 63. *)
Definition extend (W : list Z) (t : nat) : list Z :=
  W ++ [mask32 (sigma1 (nth (t - 2) W 0) + nth (t - 7) W 0
                + sigma0 (nth (t - 15) W 0) + nth (t - 16) W 0)].

Definition schedule (block : list Z) : list Z :=
  fold_left extend (seq 16 48) (words be_word block).

Definition round (W : list Z) (v : list Z) (t : nat) : list Z :=
  match v with
  | [a; b; c; d; e; f; g; h] =>
      let T1 := mask32 (h + Sigma1 e + Ch e f g + nth t cube_roots 0 + nth t W 0) in
      let T2 := mask32 (Sigma0 a + Maj a b c) in
      [mask32 (T1 + T2); a; b; c; mask32 (d + T1); e; f; g]
  | _ => v
  end.

Fixpoint add_words (u v : list Z) : list Z :=
  match u, v with
  | x :: u', y :: v' => mask32 (x + y) :: add_words u' v'
  | _, _ => []
  end.

Definition compress (H : list Z) (block : list Z) : list Z :=
  add_words H (fold_left (round (schedule block)) (seq 0 64) H).

Definition digest (msg : list Z) : list Z :=
  flat_map (be_bytes 4) (fold_left compress (blocks (pad msg)) init).

(** [hashlib.sha256(s.encode()).hexdigest()] *)
Definition hexdigest (s : string) : string := hexlify (digest (encode s)).

End SHA256.

(* ===================================================================== *)
(** ** Results of calls that may raise *)
(* ===================================================================== *)

Inductive exn : Type := OverflowError | ValueError.

Inductive outcome (A : Type) : Type :=
| Return (a : A)
| Raise (e : exn).

Arguments Return {A} a.
Arguments Raise {A} e.

(* ===================================================================== *)
(** ** The parts of [datetime] the store uses *)
(* ===================================================================== *)

Module Datetime.

(** A naive [datetime]: the fields of the object. *)
Record datetime : Type := mk {
  year : Z; month : Z; day : Z;
  hour : Z; minute : Z; second : Z; microsecond : Z
}.

Definition MAXYEAR : Z := 9999.

Definition is_leap (y : Z) : bool :=
  (y mod 4 =? 0) && (negb (y mod 100 =? 0) || (y mod 400 =? 0)).

Definition days_in_month (y m : Z) : Z :=
  if m =? 2 then (if is_leap y then 29 else 28)
  else if (m =? 4) || (m =? 6) || (m =? 9) || (m =? 11) then 30
  else 31.

Definition within (lo x hi : Z) : bool := (lo <=? x) && (x <=? hi).

(** The field ranges the constructor of [datetime] enforces. *)
Definition validb (d : datetime) : bool :=
  within 1 (year d) MAXYEAR && within 1 (month d) 12
  && within 1 (day d) (days_in_month (year d) (month d))
  && within 0 (hour d) 23 && within 0 (minute d) 59
  && within 0 (second d) 59 && within 0 (microsecond d) 999999.

Definition valid (d : datetime) : Prop := validb d = true.

Definition lex (c1 c2 : comparison) : comparison :=
  match c1 with Eq => c2 | _ => c1 end.

(** Comparison of two naive datetimes: field by field, year first. *)
Definition cmp (a b : datetime) : comparison :=
  lex (year a ?= year b) (lex (month a ?= month b) (lex (day a ?= day b)
    (lex (hour a ?= hour b) (lex (minute a ?= minute b)
      (lex (second a ?= second b) (microsecond a ?= microsecond b)))))).

(** [a > b] *)
Definition gtb (a b : datetime) : bool :=
  match cmp a b with Gt => true | _ => false end.

(** [a <= b] *)
Definition leb (a b : datetime) : bool :=
  match cmp a b with Gt => false | _ => true end.

(** The same time of day on the following calendar day; [OverflowError]
    past 31 December 9999. *)
Definition next_day (d : datetime) : outcome datetime :=
  let '(mk y m dd hh mi ss us) := d in
  if dd <? days_in_month y m then Return (mk y m (dd + 1) hh mi ss us)
  else if m <? 12 then Return (mk y (m + 1) 1 hh mi ss us)
  else if y <? MAXYEAR then Return (mk (y + 1) 1 1 hh mi ss us)
  else Raise OverflowError.

Fixpoint add_days (n : nat) (d : datetime) : outcome datetime :=
  match n with
  | O => Return d
  | S k => match next_day d with
           | Return d' => add_days k d'
           | Raise e => Raise e
           end
  end.

(** [d + timedelta(hours=h)] for [h >= 0]: the hours carry into days. *)
Definition add_hours (d : datetime) (h : Z) : outcome datetime :=
  let '(mk y m dd hh mi ss us) := d in
  let t := hh + h in
  add_days (Z.to_nat (t / 24)) (mk y m dd (t mod 24) mi ss us).

(** [_days_before_year]: the days before 1 January of year [y]. *)
Definition days_before_year (y : Z) : Z :=
  let y := y - 1 in y * 365 + y / 4 - y / 100 + y / 400.

(** [_days_before_month]: the days of year [y] before the first of month
    [m]. *)
Definition days_before_month (y m : Z) : Z :=
  nth (Z.to_nat m) [0; 0; 31; 59; 90; 120; 151; 181; 212; 243; 273; 304; 334] 0
  + (if (2 <? m) && is_leap y then 1 else 0).

(** [d.toordinal()]: 1 January of year 1 is day 1. *)
Definition toordinal (d : datetime) : Z :=
  days_before_year (year d) + days_before_month (year d) (month d) + day d.

(** The place of [d] on the time line, in microseconds:
    [(d - datetime(1, 1, 1)) // timedelta(microseconds=1)] up to the
    constant of one day. *)
Definition timeline (d : datetime) : Z :=
  (((toordinal d * 24 + hour d) * 60 + minute d) * 60 + second d) * 1000000
  + microsecond d.

Definition digit_char (d : Z) : ascii := ascii_of_N (Z.to_N (48 + d mod 10)).

(** The [k] decimal digits of [n], most significant first: ["%0kd" % n]
    for [0 <= n < 10^k]. *)
Fixpoint zpad (k : nat) (n : Z) : string :=
  match k with
  | O => EmptyString
  | S k' => String (digit_char (n / 10 ^ Z.of_nat k'))
                   (zpad k' (n mod 10 ^ Z.of_nat k'))
  end.

(** [d.isoformat()] of a naive datetime: the fraction is written only
    when the microsecond field is not zero. *)
Definition isoformat (d : datetime) : string :=
  zpad 4 (year d) +:+ "-" +:+ zpad 2 (month d) +:+ "-" +:+ zpad 2 (day d)
  +:+ "T" +:+ zpad 2 (hour d) +:+ ":" +:+ zpad 2 (minute d)
  +:+ ":" +:+ zpad 2 (second d)
  +:+ (if microsecond d =? 0 then "" else "." +:+ zpad 6 (microsecond d)).

(** The C library's [%Y]: the year in decimal, not padded. *)
Definition year_width (y : Z) : nat :=
  if y <? 10 then 1%nat else if y <? 100 then 2%nat
  else if y <? 1000 then 3%nat else 4%nat.

(** [d.strftime("%Y%m%d")] *)
Definition strftime_Ymd (d : datetime) : string :=
  zpad (year_width (year d)) (year d) +:+ zpad 2 (month d) +:+ zpad 2 (day d).

Definition digit_val (c : ascii) : option Z :=
  let n := Z.of_N (N_of_ascii c) in
  if (48 <=? n) && (n <=? 57) then Some (n - 48) else None.

Fixpoint read_digits (k : nat) (acc : Z) (s : string) : option (Z * string) :=
  match k with
  | O => Some (acc, s)
  | S k' =>
      match s with
      | EmptyString => None
      | String c r =>
          match digit_val c with
          | Some v => read_digits k' (10 * acc + v) r
          | None => None
          end
      end
  end.

Definition expect (c : ascii) (s : string) : option string :=
  match s with
  | String c' r => if Ascii.eqb c c' then Some r else None
  | EmptyString => None
  end.

Definition read_fraction (s : string) : option Z :=
  match s with
  | EmptyString => Some 0
  | String c r =>
      if Ascii.eqb c "." then
        match read_digits 6 0 r with
        | Some (us, EmptyString) => Some us
        | _ => None
        end
      else None
  end.

Definition parse_fields (s : string) : option datetime :=
  '(y, s) ← read_digits 4 0 s; s ← expect "-" s;
  '(m, s) ← read_digits 2 0 s; s ← expect "-" s;
  '(dd, s) ← read_digits 2 0 s; s ← expect "T" s;
  '(hh, s) ← read_digits 2 0 s; s ← expect ":" s;
  '(mi, s) ← read_digits 2 0 s; s ← expect ":" s;
  '(ss, s) ← read_digits 2 0 s;
  us ← read_fraction s;
  Some (mk y m dd hh mi ss us).

(** [datetime.fromisoformat(s)] on the strings [isoformat] writes for a
    naive datetime, [YYYY-MM-DDTHH:MM:SS] with an optional [.ffffff];
    [ValueError] for a field out of range.  The library reads further
    notations (a date alone, other separators, offsets); the store never
    holds them, and they are reported as [ValueError] here. *)
Definition fromisoformat (s : string) : outcome datetime :=
  match parse_fields s with
  | Some d => if validb d then Return d else Raise ValueError
  | None => Raise ValueError
  end.

End Datetime.

(* ===================================================================== *)
(** ** [uuid.uuid4] *)
(* ===================================================================== *)

Module Uuid.
Import Bytes.

(** [UUID(bytes=os.urandom(16), version=4).int], from the number [r] the
    16 random bytes spell: the variant and version bits are forced. *)
Definition uuid4_int (r : Z) : Z :=
  let i := r mod 2 ^ 128 in
  let i := Z.land i (Z.lnot (Z.shiftl 0xc000 48)) in
  let i := Z.lor i (Z.shiftl 0x8000 48) in
  let i := Z.land i (Z.lnot (Z.shiftl 0xf000 64)) in
  Z.lor i (Z.shiftl 4 76).

(** [str(u)]: 32 hexadecimal digits grouped 8-4-4-4-12. *)
Definition str (i : Z) : string :=
  let h := hexlify (be_bytes 16 i) in
  substring 0 8 h +:+ "-" +:+ substring 8 4 h +:+ "-" +:+ substring 12 4 h
  +:+ "-" +:+ substring 16 4 h +:+ "-" +:+ substring 20 12 h.

End Uuid.

(* ===================================================================== *)
(** ** The world outside the process *)
(* ===================================================================== *)

(** A file on disk: absent, present but not parsable as JSON, or holding
    the dictionary last dumped into it. *)
Inductive file (A : Type) : Type :=
| Missing
| Unreadable
| Stored (a : A).

Arguments Missing {A}.
Arguments Unreadable {A}.
Arguments Stored {A} a.

Module User.
(** One value of users.json. *)
Record t : Type := mk {
  password : string;
  role : string;
  full_name : string;
  client_id : string;
  created_at : string;
  last_login : string
}.

Definition with_last_login (u : t) (v : string) : t :=
  mk (password u) (role u) (full_name u) (client_id u) (created_at u) v.
End User.

Module Session.
(** One value of sessions.json. *)
Record t : Type := mk {
  username : string;
  created_at : string;
  expires_at : string
}.
End Session.

(** The two files, the wall clock and the entropy source.  [clock w n] is
    what the [n]-th call of [datetime.now()] reads and [urandom w n] the
    number spelt by the [n]-th draw of 16 random bytes; [ticks] and [draws]
    count the calls made so far. *)
Record world : Type := mkWorld {
  users_file : file (gmap string User.t);
  sessions_file : file (gmap string Session.t);
  clock : nat -> Datetime.datetime;
  ticks : nat;
  urandom : nat -> Z;
  draws : nat
}.

(** A computation: it may raise, and the world it leaves is observable
    either way. *)
Definition M (A : Type) : Type := world -> outcome A * world.

Definition ret {A} (a : A) : M A := fun w => (Return a, w).

Definition bind {A B} (c : M A) (k : A -> M B) : M B :=
  fun w =>
    match c w with
    | (Return a, w') => k a w'
    | (Raise e, w') => (Raise e, w')
    end.

Definition lift {A} (o : outcome A) : M A := fun w => (o, w).

Notation "x <- c ;; k" := (bind c (fun x => k))
  (at level 100, c at next level, right associativity).
Notation "c ;;; k" := (bind c (fun _ => k))
  (at level 100, right associativity).

(** The world after one more reading of the clock. *)
Definition tick (w : world) : world :=
  mkWorld (users_file w) (sessions_file w) (clock w) (S (ticks w))
          (urandom w) (draws w).

(** The world after one more draw of random bytes. *)
Definition draw (w : world) : world :=
  mkWorld (users_file w) (sessions_file w) (clock w) (ticks w)
          (urandom w) (S (draws w)).

(** The world after users.json is rewritten with [users]. *)
Definition write_users (users : gmap string User.t) (w : world) : world :=
  mkWorld (Stored users) (sessions_file w) (clock w) (ticks w)
          (urandom w) (draws w).

(** The world after sessions.json is rewritten with [sessions]. *)
Definition write_sessions (sessions : gmap string Session.t) (w : world) : world :=
  mkWorld (users_file w) (Stored sessions) (clock w) (ticks w)
          (urandom w) (draws w).

(** [datetime.now()] *)
Definition datetime_now : M Datetime.datetime :=
  fun w => (Return (clock w (ticks w)), tick w).

(** [str(uuid.uuid4())] *)
Definition uuid4_str : M string :=
  fun w => (Return (Uuid.str (Uuid.uuid4_int (urandom w (draws w)))), draw w).

(** [os.path.exists] *)
Definition exists_file {A} (f : file A) : bool :=
  match f with Missing => false | _ => true end.

(** [json.load] under [try: ... except: return {}] *)
Definition load_or_empty {A} (f : file (gmap string A)) : gmap string A :=
  match f with Stored d => d | _ => ∅ end.

(** The [in] operator on a dictionary. *)
Definition contains {A} (d : gmap string A) (k : string) : bool :=
  match d !! k with Some _ => true | None => false end.

(** [s.upper()] on ASCII text. *)
Definition upper_char (c : ascii) : ascii :=
  let n := N_of_ascii c in
  if ((97 <=? n) && (n <=? 122))%N then ascii_of_N (n - 32) else c.

Fixpoint upper (s : string) : string :=
  match s with
  | EmptyString => EmptyString
  | String c r => String (upper_char c) (upper r)
  end.

(* ===================================================================== *)
(** ** [class AuthManager] *)
(* ===================================================================== *)

Section AuthManager.

(** [str.title]: the interpreter's Unicode-aware title casing.  Only the
    display name goes through it; it is left as a parameter. *)
Variable title : string -> string.

Definition load_users : M (gmap string User.t) :=
  fun w => (Return (load_or_empty (users_file w)), w).

Definition save_users (users : gmap string User.t) : M unit :=
  fun w => (Return tt, write_users users w).

Definition load_sessions : M (gmap string Session.t) :=
  fun w => (Return (load_or_empty (sessions_file w)), w).

Definition save_sessions (sessions : gmap string Session.t) : M unit :=
  fun w => (Return tt, write_sessions sessions w).

Definition ensure_files_exist : M unit :=
  (fun w => if exists_file (users_file w) then ret tt w else save_users ∅ w) ;;;
  (fun w => if exists_file (sessions_file w) then ret tt w else save_sessions ∅ w).

(** [__init__] *)
Definition init : M unit := ensure_files_exist.

Definition hash_password (password : string) : string :=
  SHA256.hexdigest password.

Definition generate_client_id (username role : string) : M string :=
  now <- datetime_now ;;
  let timestamp := Datetime.strftime_Ymd now in
  let role_prefix := if String.eqb role "investor" then "INV" else "IVE" in
  let username_hash := upper (substring 0 6 (MD5.hexdigest username)) in
  ret (role_prefix +:+ "_" +:+ username_hash +:+ "_" +:+ timestamp).

Definition create_session (username : string) : M string :=
  session_id <- uuid4_str ;;
  sessions <- load_sessions ;;
  created <- datetime_now ;;
  now <- datetime_now ;;
  expires <- lift (Datetime.add_hours now 24) ;;
  save_sessions (<[session_id :=
    Session.mk username (Datetime.isoformat created)
               (Datetime.isoformat expires)]> sessions) ;;;
  ret session_id.

Definition register_user (username password role : string)
  : M (bool * string * string) :=
  users <- load_users ;;
  if contains users username then
    ret (false, "Username already exists", "")
  else if String.eqb username "" || String.eqb password "" then
    ret (false, "Username and password are required", "")
  else if negb (existsb (String.eqb role) ["investor"; "investee"]) then
    ret (false, "Invalid role selected", "")
  else
    client_id <- generate_client_id username role ;;
    let hashed := hash_password password in
    created <- datetime_now ;;
    login <- datetime_now ;;
    save_users (<[username :=
      User.mk hashed role (title username) client_id
              (Datetime.isoformat created) (Datetime.isoformat login)]> users) ;;;
    session_id <- create_session username ;;
    ret (true, "User registered successfully! Client ID: " +:+ client_id,
         session_id).

Definition authenticate_user (username password : string)
  : M (bool * option User.t) :=
  users <- load_users ;;
  match users !! username with
  | None => ret (false, None)
  | Some user =>
      if String.eqb (User.password user) (hash_password password) then
        now <- datetime_now ;;
        let user := User.with_last_login user (Datetime.isoformat now) in
        save_users (<[username := user]> users) ;;;
        ret (true, Some user)
      else ret (false, None)
  end.

Definition validate_session (session_id : string)
  : M (bool * option string) :=
  sessions <- load_sessions ;;
  match sessions !! session_id with
  | None => ret (false, None)
  | Some session =>
      expires_at <- lift (Datetime.fromisoformat (Session.expires_at session)) ;;
      now <- datetime_now ;;
      if Datetime.gtb now expires_at then
        save_sessions (delete session_id sessions) ;;;
        ret (false, None)
      else ret (true, Some (Session.username session))
  end.

Definition logout_user (session_id : string) : M unit :=
  sessions <- load_sessions ;;
  if contains sessions session_id then
    save_sessions (delete session_id sessions)
  else ret tt.

Definition get_user_info (username : string) : M (option User.t) :=
  users <- load_users ;;
  ret (users !! username).

(** The operations the class exposes, as data. *)
Inductive call : Type :=
| Register (username password role : string)
| Authenticate (username password : string)
| CreateSession (username : string)
| ValidateSession (session_id : string)
| Logout (session_id : string)
| GetUserInfo (username : string).

(** The world an operation leaves, whether it returned or raised. *)
Definition after (c : call) (w : world) : world :=
  match c with
  | Register u p r => snd (register_user u p r w)
  | Authenticate u p => snd (authenticate_user u p w)
  | CreateSession u => snd (create_session u w)
  | ValidateSession sid => snd (validate_session sid w)
  | Logout sid => snd (logout_user sid w)
  | GetUserInfo u => snd (get_user_info u w)
  end.

End AuthManager.

(* ===================================================================== *)
(** ** A concrete world for evaluation *)
(* ===================================================================== *)

Module Demo.

(** ASCII title casing: a letter is upper-cased after a non-letter and
    lower-cased after a letter. *)
Definition is_lower (c : ascii) : bool :=
  let n := N_of_ascii c in ((97 <=? n) && (n <=? 122))%N.
Definition is_upper (c : ascii) : bool :=
  let n := N_of_ascii c in ((65 <=? n) && (n <=? 90))%N.
Definition lower_char (c : ascii) : ascii :=
  if is_upper c then ascii_of_N (N_of_ascii c + 32) else c.

Fixpoint title_from (after_letter : bool) (s : string) : string :=
  match s with
  | EmptyString => EmptyString
  | String c r =>
      let letter := is_lower c || is_upper c in
      String (if after_letter then lower_char c else upper_char c)
             (title_from letter r)
  end.

Definition title : string -> string := title_from false.

(** 15 January 2024, 10:30:00, one second later at every reading. *)
Definition readings (n : nat) : Datetime.datetime :=
  Datetime.mk 2024 1 15 10 30 (Z.of_nat n mod 60) 0.

Definition entropy (n : nat) : Z :=
  0x0123456789abcdef0123456789abcdef + Z.of_nat n.

(** Fresh installation: both files were just created empty. *)
Definition fresh : world := mkWorld (Stored ∅) (Stored ∅) readings 0 entropy 0.

Definition at_time (d : Datetime.datetime) (w : world) : world :=
  mkWorld (users_file w) (sessions_file w) (fun _ => d) 0
          (urandom w) (draws w).

(** The world after alice has registered. *)
Definition registered : world :=
  snd (register_user title "alice" "secret1" "investor" fresh).

(** The token of the session opened by that registration. *)
Definition token : string := "01234567-89ab-4def-8123-456789abcdef".

End Demo.

(* ===================================================================== *)
(** ** Vocabulary of the statements *)
(* ===================================================================== *)

(** The dictionaries [load_users] and [load_sessions] would return. *)
Definition users_of (w : world) : gmap string User.t :=
  load_or_empty (users_file w).

Definition sessions_of (w : world) : gmap string Session.t :=
  load_or_empty (sessions_file w).

(** What the next call of [datetime.now()] reads. *)
Definition current_time (w : world) : Datetime.datetime := clock w (ticks w).

Fixpoint all_chars (P : ascii -> bool) (s : string) : bool :=
  match s with
  | EmptyString => true
  | String c r => P c && all_chars P r
  end.

Definition in_range (lo hi : N) (c : ascii) : bool :=
  ((lo <=? N_of_ascii c) && (N_of_ascii c <=? hi))%N.

(** [\d] *)
Definition is_digit (c : ascii) : bool := in_range 48 57 c.
(** [[a-f0-9]] *)
Definition is_lower_hex (c : ascii) : bool := is_digit c || in_range 97 102 c.
(** [[A-F0-9]] *)
Definition is_upper_hex (c : ascii) : bool := is_digit c || in_range 65 70 c.

(** The invariant of the user collection: no two entries share a username
    (the collection is a dictionary keyed by username), every stored role
    is one of the two roles, and no stored password hash is empty. *)
Definition user_ok (u : User.t) : Prop :=
  (User.role u = "investor" \/ User.role u = "investee")
  /\ User.password u <> "".

Definition users_invariant (users : gmap string User.t) : Prop :=
  NoDup (map fst (map_to_list users))
  /\ forall name u, users !! name = Some u -> user_ok u.

(** Every reading of the wall clock is a datetime. *)
Definition clock_valid (w : world) : Prop :=
  forall n, Datetime.valid (clock w n).

(** Every reading of the wall clock is a datetime in a year of four digits
    (the system clock counts from 1970). *)
Definition clock_ok (w : world) : Prop :=
  forall n, Datetime.valid (clock w n) /\ 1000 <= Datetime.year (clock w n).

(** The client identifier and the record a registration stores when the
    clock is at [current_time w], and the world it then hands to
    [create_session]: three readings of the clock later, users.json
    rewritten. *)
Definition registered_client_id (w : world) (u r : string) : string :=
  (if String.eqb r "investor" then "INV" else "IVE") +:+ "_"
  +:+ upper (substring 0 6 (MD5.hexdigest u)) +:+ "_"
  +:+ Datetime.strftime_Ymd (current_time w).

Definition registered_record (title : string -> string) (w : world)
    (u p r : string) : User.t :=
  User.mk (hash_password p) r (title u) (registered_client_id w u r)
          (Datetime.isoformat (clock w (S (ticks w))))
          (Datetime.isoformat (clock w (S (S (ticks w))))).

Definition registered_world (title : string -> string) (w : world)
    (u p r : string) : world :=
  write_users (<[u := registered_record title w u p r]> (users_of w))
              (tick (tick (tick w))).

(* ===================================================================== *)
(** ** The page functions of [auth.py] and their callers *)
(* ===================================================================== *)

(** [st.session_state], restricted to the keys [auth.py] reads or writes;
    [None] is an absent key.  The [AuthManager] instance kept under
    ['auth_manager'] has no state of its own (two constant file names), so
    only the presence of the key is recorded. *)
Module St.
Record t : Type := mk {
  auth_manager : bool;
  authenticated : option bool;
  session_id : option string;
  current_user : option User.t;
  last_session_id : option string
}.

Definition empty : t := mk false None None None None.
End St.

(** What a run of the script puts on the page through [st.success],
    [st.error], [st.warning] and [st.info].  Static layout (titles, tabs,
    form widgets, the footer) changes no state and is not recorded. *)
Inductive notice : Type :=
| Success (text : string)
| Error (text : string)
| Warning (text : string)
| Info (text : string).

(** One run of the script acts on the session state, the world, and the
    page being drawn. *)
Record page : Type := mkPage {
  state : St.t;
  disk : world;
  shown : list notice
}.

Inductive ui_exn : Type :=
| FromAuth (e : exn)
| TypeError.

(** A run ends with a value, with [st.rerun()] (the script stops and runs
    again from the top with the session state kept), or with an exception. *)
Inductive ui_result (A : Type) : Type :=
| Value (a : A)
| Rerun
| Failure (e : ui_exn).

Arguments Value {A} a.
Arguments Rerun {A}.
Arguments Failure {A} e.

Definition UI (A : Type) : Type := page -> ui_result A * page.

Definition ui_ret {A} (a : A) : UI A := fun p => (Value a, p).

Definition ui_bind {A B} (c : UI A) (k : A -> UI B) : UI B :=
  fun p =>
    match c p with
    | (Value a, p') => k a p'
    | (Rerun, p') => (Rerun, p')
    | (Failure e, p') => (Failure e, p')
    end.

Notation "x <~ c ;; k" := (ui_bind c (fun x => k))
  (at level 100, c at next level, right associativity).
Notation "c ~;; k" := (ui_bind c (fun _ => k))
  (at level 100, right associativity).

(** A method of the [AuthManager] called from the page. *)
Definition invoke {A} (c : M A) : UI A :=
  fun p =>
    match c (disk p) with
    | (Return a, w) => (Value a, mkPage (state p) w (shown p))
    | (Raise e, w) => (Failure (FromAuth e), mkPage (state p) w (shown p))
    end.

Definition get_state : UI St.t := fun p => (Value (state p), p).

Definition put_state (s : St.t) : UI unit :=
  fun p => (Value tt, mkPage s (disk p) (shown p)).

Definition show (n : notice) : UI unit :=
  fun p => (Value tt, mkPage (state p) (disk p) (shown p ++ [n])).

(** [st.rerun()] *)
Definition rerun {A} : UI A := fun p => (Rerun, p).

Definition raise_ui {A} (e : ui_exn) : UI A := fun p => (Failure e, p).

(** Truth value of a [str]: not empty. *)
Definition truthy (s : string) : bool := negb (String.eqb s "").

(** [len(s)]: the code points of [s], which are the bytes of its UTF-8
    form that are not continuation bytes [10xxxxxx]. *)
Fixpoint py_len (s : string) : Z :=
  match s with
  | EmptyString => 0
  | String c r =>
      (if Z.land (Z.of_N (N_of_ascii c)) 0xC0 =? 0x80 then 0 else 1) + py_len r
  end.

Module Page.

(** The values the widgets of the login page return in one run. *)
Record inputs : Type := mkInputs {
  username : string;
  password : string;
  login_button : bool;
  reg_username : string;
  reg_password : string;
  reg_confirm_password : string;
  reg_role : string;
  register_button : bool
}.

Section Pages.

Variable title : string -> string.

(** [with tab1:] of [show_login_page]: the login form. *)
Definition tab1 (i : inputs) : UI unit :=
  if login_button i then
    if truthy (username i) && truthy (password i) then
      r <~ invoke (authenticate_user (username i) (password i)) ;;
      if fst r then
        session_id <~ invoke (create_session (username i)) ;;
        s <~ get_state ;;
        put_state (St.mk (St.auth_manager s) (Some true) (Some session_id)
                         (snd r) (St.last_session_id s)) ~;;
        match snd r with
        | Some user_info =>
            show (Success ("✅ Welcome back, " +:+ User.full_name user_info
                           +:+ "!")) ~;;
            show (Success ("🆔 Your Client ID: **"
                           +:+ User.client_id user_info +:+ "**")) ~;;
            rerun
        | None => raise_ui TypeError
        end
      else show (Error "❌ Invalid username or password")
    else show (Warning "⚠️ Please enter both username and password")
  else ui_ret tt.

(** [with tab2:] of [show_login_page]: the registration form. *)
Definition tab2 (i : inputs) : UI unit :=
  (if String.eqb (reg_role i) "investor" then
     show (Info "🏦 **Investor**: You provide capital and analyze investment opportunities")
   else
     show (Info "🏢 **Investee**: You seek investment and provide business data for analysis")) ~;;
  if register_button i then
    if negb (truthy (reg_username i) && truthy (reg_password i)
             && truthy (reg_confirm_password i)) then
      show (Warning "⚠️ Please fill in all fields")
    else if negb (String.eqb (reg_password i) (reg_confirm_password i)) then
      show (Error "❌ Passwords do not match")
    else if py_len (reg_password i) <? 6 then
      show (Error "❌ Password must be at least 6 characters long")
    else
      r <~ invoke (register_user title (reg_username i) (reg_password i)
                               (reg_role i)) ;;
      let '(success, message, session_id) := r in
      if success then
        show (Success ("✅ " +:+ message)) ~;;
        if truthy session_id then
          a <~ invoke (authenticate_user (reg_username i) (reg_password i)) ;;
          if fst a then
            s <~ get_state ;;
            put_state (St.mk (St.auth_manager s) (Some true) (Some session_id)
                             (snd a) (St.last_session_id s)) ~;;
            show (Success "🎉 Welcome! You're now logged in!") ~;;
            rerun
          else ui_ret tt
        else ui_ret tt
      else show (Error ("❌ " +:+ message))
  else ui_ret tt.

Definition show_login_page (i : inputs) : UI unit :=
  s <~ get_state ;;
  (if St.auth_manager s then ui_ret tt
   else
     invoke init ~;;
     put_state (St.mk true (St.authenticated s) (St.session_id s)
                      (St.current_user s) (St.last_session_id s))) ~;;
  tab1 i ~;;
  tab2 i.

Definition check_authentication : UI bool :=
  s <~ get_state ;;
  (match St.authenticated s with
   | None =>
       put_state (St.mk (St.auth_manager s) (Some false) (St.session_id s)
                        (St.current_user s) (St.last_session_id s))
   | Some _ => ui_ret tt
   end) ~;;
  s <~ get_state ;;
  if negb (default false (St.authenticated s)) then ui_ret false
  else
    match St.session_id s with
    | Some session_id =>
        if St.auth_manager s then
          r <~ invoke (validate_session session_id) ;;
          if negb (fst r) then
            put_state (St.mk (St.auth_manager s) (Some false) None None
                             (St.last_session_id s)) ~;;
            ui_ret false
          else ui_ret true
        else ui_ret true
    | None => ui_ret true
    end.

(** The module-level [logout_user]. *)
Definition logout_user : UI unit :=
  s <~ get_state ;;
  (match St.session_id s with
   | Some session_id =>
       if St.auth_manager s then invoke (logout_user session_id)
       else ui_ret tt
   | None => ui_ret tt
   end) ~;;
  put_state (St.mk (St.auth_manager s) None None None None) ~;;
  rerun.

Definition get_current_user : UI (option User.t) :=
  s <~ get_state ;;
  ui_ret (St.current_user s).

Definition get_current_client_id : UI (option string) :=
  user <~ get_current_user ;;
  ui_ret (match user with
          | Some u => Some (User.client_id u)
          | None => None
          end).

(** [main_app.main]; the dashboard it hands over to is a parameter. *)
Variable excel_main : UI unit.

Definition main (i : inputs) : UI unit :=
  ok <~ check_authentication ;;
  if negb ok then show_login_page i else excel_main.

End Pages.

End Page.

(* ===================================================================== *)
(** ** Grouping stored reports by client ([s3_data_visualizer.py]) *)
(* ===================================================================== *)

Module S3.

(** [c in s] for a one-character [c]. *)
Fixpoint has_char (c : ascii) (s : string) : bool :=
  match s with
  | EmptyString => false
  | String x r => Ascii.eqb x c || has_char c r
  end.

(** [s.split(c)] for a one-character separator: never empty. *)
Fixpoint split (c : ascii) (s : string) : list string :=
  match s with
  | EmptyString => [EmptyString]
  | String x r =>
      if Ascii.eqb x c then EmptyString :: split c r
      else match split c r with
           | h :: t => String x h :: t
           | [] => [String x EmptyString]
           end
  end.

(** [sep.join(parts)] *)
Fixpoint join (sep : string) (parts : list string) : string :=
  match parts with
  | [] => EmptyString
  | [x] => x
  | x :: rest => x +:+ sep +:+ join sep rest
  end.

(** [s.replace(pat, '')] for a non-empty [pat]: the occurrences of [pat]
    are removed from left to right; [skip] characters of an occurrence
    found earlier are still to be dropped. *)
Fixpoint remove_from (pat : string) (skip : nat) (s : string) : string :=
  match s with
  | EmptyString => EmptyString
  | String x r =>
      match skip with
      | S k => remove_from pat k r
      | O =>
          if String.prefix pat s then remove_from pat (String.length pat - 1) r
          else String x (remove_from pat 0 r)
      end
  end.

Definition remove_all (pat s : string) : string := remove_from pat 0 s.

Definition extract_client_id_from_key (object_key : string) : string :=
  if has_char "/" object_key then
    hd EmptyString (split "/" object_key)
  else if has_char "_" object_key then
    let parts := split "_" object_key in
    if (2 <=? length parts)%nat then join "_" (firstn 2 parts)
    else remove_all ".json" object_key
  else remove_all ".json" object_key.

(** The loop of [excel_analysis_ui.main] that groups the object keys by
    client: each key is appended to the list of its client. *)
Definition add_object (client_groups : gmap string (list string))
    (obj : string) : gmap string (list string) :=
  let client_id := extract_client_id_from_key obj in
  let client_groups :=
    if contains client_groups client_id then client_groups
    else <[client_id := []]> client_groups in
  <[client_id := default [] (client_groups !! client_id) ++ [obj]]> client_groups.

Definition group_by_client (s3_objects : list string)
  : gmap string (list string) :=
  fold_left add_object s3_objects ∅.

End S3.

(** The page once [show_login_page] has made sure the manager is in the
    session state: constructing it runs [init] on the disk. *)
Definition with_manager (p : page) : page :=
  if St.auth_manager (state p) then p
  else mkPage (St.mk true (St.authenticated (state p))
                     (St.session_id (state p)) (St.current_user (state p))
                     (St.last_session_id (state p)))
              (snd (init (disk p))) (shown p).

(** The notice under the role selector of the registration form. *)
Definition role_info (role : string) : notice :=
  if String.eqb role "investor" then
    Info "🏦 **Investor**: You provide capital and analyze investment opportunities"
  else
    Info "🏢 **Investee**: You seek investment and provide business data for analysis".

(** The page at the start of the run that follows: same session state and
    disk, nothing drawn yet. *)
Definition next_run (p : page) : page := mkPage (state p) (disk p) [].

(** Every reading of the wall clock is a datetime before the last year
    [datetime] can hold, so that adding a day never overflows. *)
Definition clock_in_range (w : world) : Prop :=
  forall n, Datetime.valid (clock w n)
            /\ Datetime.year (clock w n) < Datetime.MAXYEAR.

(* ===================================================================== *)
(** ** A concrete session at the login page *)
(* ===================================================================== *)

Module Scene.

(** An installation where alice is registered, described directly. *)
Definition alice : User.t :=
  User.mk (hash_password "secret1") "investor" "Alice" "INV_6384E2_20240115"
          "2024-01-15T10:30:01" "2024-01-15T10:30:02".

Definition installed : world :=
  mkWorld (Stored {[ "alice" := alice ]}) (Stored ∅)
          Demo.readings 0 Demo.entropy 0.

(** The first run of the script: nothing in the session state. *)
Definition arrival : page := mkPage St.empty installed [].

Definition login (username password : string) : Page.inputs :=
  Page.mkInputs username password true "" "" "" "investor" false.

Definition signup (username password confirm role : string) : Page.inputs :=
  Page.mkInputs "" "" false username password confirm role true.

(** The page after alice has logged in through the form. *)
Definition logged_in : page :=
  next_run (snd (Page.show_login_page Demo.title (login "alice" "secret1") arrival)).

(** The token of that login. *)
Definition token : string := "01234567-89ab-4def-8123-456789abcdef".

End Scene.

(* ===================================================================== *)
(** * Properties *)
(* ===================================================================== *)

Example md5_alice : MD5.hexdigest "alice" = "6384e2b2184bcbf58eccf10ca7a6563c"%string.
Proof. vm_compute. reflexivity. Qed.

Example md5_empty : MD5.hexdigest "" = "d41d8cd98f00b204e9800998ecf8427e"%string.
Proof. vm_compute. reflexivity. Qed.

Example md5_two_blocks :
  MD5.hexdigest "aaaaaaaaaaaaaaaaaaaaaaaaaaaaaaaaaaaaaaaaaaaaaaaaaaaaaaaa"
  = "3b0c8ac703f828b04c6c197006d17218"%string.
Proof. vm_compute. reflexivity. Qed.

Example sha256_primes : length SHA256.primes = 64%nat /\ nth 63 SHA256.primes 0 = 311.
Proof. split; reflexivity. Qed.

Example sha256_round_constants :
  nth 0 SHA256.cube_roots 0 = 0x428a2f98 /\ nth 63 SHA256.cube_roots 0 = 0xc67178f2.
Proof. split; reflexivity. Qed.

Example sha256_initial_value :
  nth 0 SHA256.init 0 = 0x6a09e667 /\ nth 7 SHA256.init 0 = 0x5be0cd19.
Proof. split; reflexivity. Qed.

Example sha256_secret1 :
  SHA256.hexdigest "secret1"
  = "5b11618c2e44027877d0cd0921ed166b9f176f50587fc91e7534dd2946db77d6"%string.
Proof. vm_compute. reflexivity. Qed.

Example sha256_empty :
  SHA256.hexdigest ""
  = "e3b0c44298fc1c149afbf4c8996fb92427ae41e4649b934ca495991b7852b855"%string.
Proof. vm_compute. reflexivity. Qed.

Example sha256_two_blocks :
  SHA256.hexdigest "aaaaaaaaaaaaaaaaaaaaaaaaaaaaaaaaaaaaaaaaaaaaaaaaaaaaaaaa"
  = "b35439a4ac6f0948b6d6f9e3c6af0f5f590ce20f1bde7090ef7970686ec6738a"%string.
Proof. vm_compute. reflexivity. Qed.

Example uuid4_all_ones :
  Uuid.str (Uuid.uuid4_int (2 ^ 128 - 1)) = "ffffffff-ffff-4fff-bfff-ffffffffffff"%string.
Proof. vm_compute. reflexivity. Qed.

Example uuid4_counting :
  Uuid.str (Uuid.uuid4_int 0x000102030405060708090a0b0c0d0e0f)
  = "00010203-0405-4607-8809-0a0b0c0d0e0f"%string.
Proof. vm_compute. reflexivity. Qed.

Example isoformat_fraction :
  Datetime.isoformat (Datetime.mk 2024 2 28 23 59 59 5) = "2024-02-28T23:59:59.000005"%string.
Proof. vm_compute. reflexivity. Qed.

Example add_hours_leap :
  Datetime.add_hours (Datetime.mk 2024 2 28 23 59 59 5) 24
  = Return (Datetime.mk 2024 2 29 23 59 59 5).
Proof. vm_compute. reflexivity. Qed.

Example add_hours_1900 :
  Datetime.add_hours (Datetime.mk 1900 2 28 1 2 3 0) 24
  = Return (Datetime.mk 1900 3 1 1 2 3 0).
Proof. vm_compute. reflexivity. Qed.

Example add_hours_year_end :
  Datetime.add_hours (Datetime.mk 2023 12 31 1 2 3 0) 24
  = Return (Datetime.mk 2024 1 1 1 2 3 0).
Proof. vm_compute. reflexivity. Qed.

Example add_hours_overflow :
  Datetime.add_hours (Datetime.mk 9999 12 31 0 0 0 0) 24 = Raise OverflowError.
Proof. vm_compute. reflexivity. Qed.

Example fromisoformat_plain :
  Datetime.fromisoformat "2024-01-02T03:04:05" = Return (Datetime.mk 2024 1 2 3 4 5 0).
Proof. vm_compute. reflexivity. Qed.

Example fromisoformat_month13 :
  Datetime.fromisoformat "2024-13-02T03:04:05" = Raise ValueError.
Proof. vm_compute. reflexivity. Qed.

Example toordinal_2024 :
  Datetime.toordinal (Datetime.mk 2024 1 15 10 30 4 0) = 738900.
Proof. reflexivity. Qed.

Example toordinal_1900 :
  Datetime.toordinal (Datetime.mk 1900 12 31 0 0 0 0) = 693960.
Proof. reflexivity. Qed.

Example strftime_short_year :
  Datetime.strftime_Ymd (Datetime.mk 999 1 2 0 0 0 0) = "9990102"%string.
Proof. vm_compute. reflexivity. Qed.

(* ===================================================================== *)
(** ** Dates and their text *)
(* ===================================================================== *)

(** [String.append] does not unfold under [simpl]; its equations. *)
Lemma append_nil (r : string) : "" +:+ r = r.
Proof. reflexivity. Qed.

Lemma append_cons (c : ascii) (s r : string) :
  String c s +:+ r = String c (s +:+ r).
Proof. reflexivity. Qed.

Lemma append_empty (s : string) : s +:+ "" = s.
Proof.
  induction s as [|c s IH]; [reflexivity|].
  rewrite append_cons, IH. reflexivity.
Qed.

Lemma append_assoc (a b c : string) : (a +:+ b) +:+ c = a +:+ (b +:+ c).
Proof.
  induction a as [|x a IH]; [reflexivity|].
  rewrite !append_cons, IH. reflexivity.
Qed.

Lemma length_append (a b : string) :
  String.length (a +:+ b) = (String.length a + String.length b)%nat.
Proof.
  induction a as [|x a IH]; [reflexivity|].
  rewrite append_cons. simpl. rewrite IH. reflexivity.
Qed.

Lemma all_chars_append (P : ascii -> bool) (a b : string) :
  all_chars P (a +:+ b) = all_chars P a && all_chars P b.
Proof.
  induction a as [|x a IH]; [reflexivity|].
  rewrite append_cons. simpl. rewrite IH, andb_assoc. reflexivity.
Qed.

Module DatetimeFacts.
Import Datetime.

Ltac to_prop :=
  repeat match goal with
    | H : _ && _ = true |- _ => apply andb_true_iff in H; destruct H
    | H : within _ _ _ = true |- _ => unfold within in H
    | H : (_ <=? _) = true |- _ => apply Z.leb_le in H
    | H : (_ <? _) = true |- _ => apply Z.ltb_lt in H
    | H : (_ <? _) = false |- _ => apply Z.ltb_ge in H
    | H : (_ =? _) = true |- _ => apply Z.eqb_eq in H
    | H : (_ =? _) = false |- _ => apply Z.eqb_neq in H
    end.

Ltac of_prop :=
  repeat match goal with
    | |- _ && _ = true => apply andb_true_iff; split
    | |- within _ _ _ = true => unfold within
    | |- (_ <=? _) = true => apply Z.leb_le
    end.

Lemma days_in_month_bounds y m : 28 <= days_in_month y m <= 31.
Proof.
  unfold days_in_month.
  destruct (m =? 2); [destruct (is_leap y); lia|].
  destruct ((m =? 4) || (m =? 6) || (m =? 9) || (m =? 11)); lia.
Qed.

Lemma valid_fields d :
  valid d ->
  1 <= year d <= 9999 /\ 1 <= month d <= 12
  /\ 1 <= day d <= days_in_month (year d) (month d)
  /\ 0 <= hour d <= 23 /\ 0 <= minute d <= 59
  /\ 0 <= second d <= 59 /\ 0 <= microsecond d <= 999999.
Proof.
  unfold valid, validb, MAXYEAR. intros H. to_prop. lia.
Qed.

Lemma fields_valid d :
  1 <= year d <= 9999 -> 1 <= month d <= 12 ->
  1 <= day d <= days_in_month (year d) (month d) ->
  0 <= hour d <= 23 -> 0 <= minute d <= 59 ->
  0 <= second d <= 59 -> 0 <= microsecond d <= 999999 ->
  valid d.
Proof.
  intros. unfold valid, validb, MAXYEAR. of_prop; lia.
Qed.

Lemma next_day_valid d e : valid d -> next_day d = Return e -> valid e.
Proof.
  intros Hv He. apply valid_fields in Hv. destruct d as [y m dd hh mi ss us].
  simpl in *. unfold MAXYEAR in He.
  destruct (dd <? days_in_month y m) eqn:E1; to_prop.
  { inversion He; subst. apply fields_valid; simpl; lia. }
  destruct (m <? 12) eqn:E2; to_prop.
  { inversion He; subst. pose proof (days_in_month_bounds y (m + 1)).
    apply fields_valid; simpl; lia. }
  destruct (y <? 9999) eqn:E3; to_prop; [|discriminate].
  inversion He; subst. pose proof (days_in_month_bounds (y + 1) 1).
  apply fields_valid; simpl; lia.
Qed.

(** Twenty-four hours later is the same time on the next calendar day. *)
Lemma add_hours_24 d : valid d -> add_hours d 24 = next_day d.
Proof.
  intros Hv. apply valid_fields in Hv. destruct d as [y m dd hh mi ss us].
  simpl in Hv. unfold add_hours.
  assert (Hq : (hh + 24) / 24 = 1) by (symmetry; apply (Z.div_unique _ _ _ hh); lia).
  assert (Hr : (hh + 24) mod 24 = hh) by (symmetry; apply (Z.mod_unique _ _ 1); lia).
  rewrite Hq, Hr. change (Z.to_nat 1) with 1%nat. cbn [add_days].
  generalize (next_day (mk y m dd hh mi ss us)). intros [e|x]; reflexivity.
Qed.

Lemma add_hours_24_valid d e : valid d -> add_hours d 24 = Return e -> valid e.
Proof.
  intros Hv He. rewrite add_hours_24 in He by assumption.
  eapply next_day_valid; eassumption.
Qed.

Lemma cmp_refl d : cmp d d = Eq.
Proof. unfold cmp. rewrite !Z.compare_refl. reflexivity. Qed.

Lemma gtb_negb_leb a b : gtb a b = negb (leb a b).
Proof. unfold gtb, leb. destruct (cmp a b); reflexivity. Qed.

Lemma leb_refl d : leb d d = true.
Proof. unfold leb. rewrite cmp_refl. reflexivity. Qed.

Lemma digit_char_cases d :
  0 <= d < 10 ->
  digit_val (digit_char d) = Some d /\ is_digit (digit_char d) = true.
Proof.
  intros H.
  assert (C : d = 0 \/ d = 1 \/ d = 2 \/ d = 3 \/ d = 4 \/ d = 5 \/ d = 6
              \/ d = 7 \/ d = 8 \/ d = 9) by lia.
  repeat (destruct C as [-> | C]; [split; reflexivity|]).
  subst. split; reflexivity.
Qed.

Lemma digit_char_is_digit d : is_digit (digit_char d) = true.
Proof.
  unfold digit_char.
  assert (H : 0 <= d mod 10 < 10) by (apply Z.mod_pos_bound; lia).
  assert (C : d mod 10 = 0 \/ d mod 10 = 1 \/ d mod 10 = 2 \/ d mod 10 = 3
              \/ d mod 10 = 4 \/ d mod 10 = 5 \/ d mod 10 = 6
              \/ d mod 10 = 7 \/ d mod 10 = 8 \/ d mod 10 = 9) by lia.
  repeat (destruct C as [-> | C]; [reflexivity|]).
  rewrite C. reflexivity.
Qed.

Lemma zpad_length k n : String.length (zpad k n) = k.
Proof.
  revert n. induction k as [|k IH]; intros n; simpl; [reflexivity|].
  rewrite IH. reflexivity.
Qed.

Lemma zpad_digits k n : all_chars is_digit (zpad k n) = true.
Proof.
  revert n. induction k as [|k IH]; intros n; simpl; [reflexivity|].
  rewrite digit_char_is_digit, IH. reflexivity.
Qed.

Lemma read_digits_zpad k : forall n acc rest,
  0 <= n < 10 ^ Z.of_nat k ->
  read_digits k acc (zpad k n +:+ rest) = Some (acc * 10 ^ Z.of_nat k + n, rest).
Proof.
  induction k as [|k IH]; intros n acc rest Hn.
  - simpl in *. f_equal. f_equal. lia.
  - rewrite Nat2Z.inj_succ, Z.pow_succ_r in Hn by lia.
    assert (Hp : 0 < 10 ^ Z.of_nat k) by (apply Z.pow_pos_nonneg; lia).
    assert (Hq : 0 <= n / 10 ^ Z.of_nat k < 10).
    { split; [apply Z.div_pos; lia|]. apply Z.div_lt_upper_bound; lia. }
    assert (Hr : 0 <= n mod 10 ^ Z.of_nat k < 10 ^ Z.of_nat k)
      by (apply Z.mod_pos_bound; lia).
    cbn [zpad]. rewrite append_cons. cbn [read_digits].
    destruct (digit_char_cases _ Hq) as [-> _].
    rewrite IH by assumption. f_equal. f_equal.
    rewrite Nat2Z.inj_succ, Z.pow_succ_r by lia.
    pose proof (Z.div_mod n (10 ^ Z.of_nat k)). lia.
Qed.

Lemma read_digits_zpad0 k n rest :
  0 <= n < 10 ^ Z.of_nat k ->
  read_digits k 0 (zpad k n +:+ rest) = Some (n, rest).
Proof. intros H. rewrite read_digits_zpad by assumption. reflexivity. Qed.

(** Reading back what [isoformat] wrote gives the same datetime. *)
Lemma fromisoformat_isoformat d : valid d -> fromisoformat (isoformat d) = Return d.
Proof.
  intros Hv. pose proof (valid_fields d Hv) as F.
  destruct d as [y m dd hh mi ss us]. simpl in F.
  pose proof (days_in_month_bounds y m).
  unfold fromisoformat, parse_fields, isoformat. cbn [year month day hour minute second microsecond].
  rewrite ?append_assoc.
  rewrite read_digits_zpad0 by (change (10 ^ Z.of_nat 4) with 10000; lia).
  rewrite append_cons, append_nil. cbn [mbind option_bind expect Ascii.eqb Bool.eqb].
  rewrite read_digits_zpad0 by (change (10 ^ Z.of_nat 2) with 100; lia).
  rewrite append_cons, append_nil. cbn [mbind option_bind expect Ascii.eqb Bool.eqb].
  rewrite read_digits_zpad0 by (change (10 ^ Z.of_nat 2) with 100; lia).
  rewrite append_cons, append_nil. cbn [mbind option_bind expect Ascii.eqb Bool.eqb].
  rewrite read_digits_zpad0 by (change (10 ^ Z.of_nat 2) with 100; lia).
  rewrite append_cons, append_nil. cbn [mbind option_bind expect Ascii.eqb Bool.eqb].
  rewrite read_digits_zpad0 by (change (10 ^ Z.of_nat 2) with 100; lia).
  rewrite append_cons, append_nil. cbn [mbind option_bind expect Ascii.eqb Bool.eqb].
  rewrite read_digits_zpad0 by (change (10 ^ Z.of_nat 2) with 100; lia).
  cbn [mbind option_bind].
  assert (Hfrac : read_fraction
            (if us =? 0 then "" else "." +:+ zpad 6 us) = Some us).
  { destruct (us =? 0) eqn:E0.
    - apply Z.eqb_eq in E0. subst. reflexivity.
    - rewrite append_cons, append_nil. cbn [read_fraction Ascii.eqb Bool.eqb].
      rewrite <- (append_empty (zpad 6 us)).
      rewrite read_digits_zpad0 by (change (10 ^ Z.of_nat 6) with 1000000; lia).
      reflexivity. }
  rewrite Hfrac. cbn [mbind option_bind].
  unfold valid in Hv. rewrite Hv. reflexivity.
Qed.

Lemma strftime_Ymd_shape d :
  valid d -> 1000 <= year d ->
  String.length (strftime_Ymd d) = 8%nat
  /\ all_chars is_digit (strftime_Ymd d) = true.
Proof.
  intros Hv Hy. unfold strftime_Ymd, year_width.
  destruct (year d <? 10) eqn:E1; to_prop; [lia|].
  destruct (year d <? 100) eqn:E2; to_prop; [lia|].
  destruct (year d <? 1000) eqn:E3; to_prop; [lia|].
  split.
  - rewrite !length_append, !zpad_length. reflexivity.
  - rewrite !all_chars_append, !zpad_digits. reflexivity.
Qed.

Lemma is_leap_spec y :
  is_leap y = true <-> (y mod 4 = 0 /\ (y mod 100 <> 0 \/ y mod 400 = 0)).
Proof.
  unfold is_leap.
  rewrite andb_true_iff, orb_true_iff, negb_true_iff, !Z.eqb_eq, Z.eqb_neq.
  reflexivity.
Qed.

Lemma days_before_year_succ y :
  days_before_year (y + 1) = days_before_year y + (if is_leap y then 366 else 365).
Proof.
  unfold days_before_year. cbv zeta.
  replace (y + 1 - 1) with y by lia.
  destruct (is_leap y) eqn:L.
  - apply is_leap_spec in L. Z.to_euclidean_division_equations. lia.
  - assert (N : ~ (y mod 4 = 0 /\ (y mod 100 <> 0 \/ y mod 400 = 0))).
    { rewrite <- is_leap_spec. congruence. }
    Z.to_euclidean_division_equations. lia.
Qed.

Lemma days_before_year_mono y1 y2 :
  y1 <= y2 -> days_before_year y1 <= days_before_year y2.
Proof.
  intros H. unfold days_before_year. cbv zeta.
  Z.to_euclidean_division_equations. lia.
Qed.

Lemma month_cases m : 1 <= m <= 12 ->
  m = 1 \/ m = 2 \/ m = 3 \/ m = 4 \/ m = 5 \/ m = 6 \/ m = 7 \/ m = 8
  \/ m = 9 \/ m = 10 \/ m = 11 \/ m = 12.
Proof. lia. Qed.

Ltac each_month H :=
  apply month_cases in H;
  repeat (destruct H as [-> | H]); [.. | subst].

(** The days before a month and the days in it make the days before the
    next month. *)
Lemma days_before_month_succ y m :
  1 <= m <= 11 ->
  days_before_month y (m + 1) = days_before_month y m + days_in_month y m.
Proof.
  intros H. assert (H' : 1 <= m <= 12) by lia.
  unfold days_before_month, days_in_month.
  each_month H'; try lia; destruct (is_leap y); reflexivity.
Qed.

Lemma days_before_month_december y :
  days_before_month y 12 + 31 = (if is_leap y then 366 else 365).
Proof. unfold days_before_month. destruct (is_leap y); reflexivity. Qed.

Lemma days_before_month_january y : days_before_month y 1 = 0.
Proof. unfold days_before_month. destruct (is_leap y); reflexivity. Qed.

Lemma days_before_month_mono y m1 m2 :
  1 <= m1 -> m1 < m2 -> m2 <= 12 ->
  days_before_month y m1 + days_in_month y m1 <= days_before_month y m2.
Proof.
  intros H1 H12 H2.
  assert (G1 : 1 <= m1 <= 12) by lia. assert (G2 : 1 <= m2 <= 12) by lia.
  unfold days_before_month, days_in_month.
  each_month G1; each_month G2; try lia; destruct (is_leap y); simpl; lia.
Qed.

Lemma days_before_month_end y m :
  1 <= m <= 12 ->
  0 <= days_before_month y m
  /\ days_before_month y m + days_in_month y m <= (if is_leap y then 366 else 365).
Proof.
  intros H. unfold days_before_month, days_in_month.
  each_month H; destruct (is_leap y); simpl; lia.
Qed.

Lemma next_day_toordinal d e :
  valid d -> next_day d = Return e ->
  toordinal e = toordinal d + 1
  /\ hour e = hour d /\ minute e = minute d /\ second e = second d
  /\ microsecond e = microsecond d.
Proof.
  intros Hv He. apply valid_fields in Hv. destruct d as [y m dd hh mi ss us].
  simpl in Hv. unfold next_day, MAXYEAR in He.
  destruct (dd <? days_in_month y m) eqn:E1; to_prop.
  { inversion He; subst. unfold toordinal; simpl. repeat split; lia. }
  destruct (m <? 12) eqn:E2; to_prop.
  { inversion He; subst. unfold toordinal; simpl.
    rewrite days_before_month_succ by lia. repeat split; lia. }
  destruct (y <? 9999) eqn:E3; to_prop; [|discriminate].
  inversion He; subst. unfold toordinal; simpl.
  assert (m = 12) by lia. subst m.
  assert (dd = 31) by (change (days_in_month y 12) with 31 in *; lia). subst dd.
  rewrite days_before_year_succ, days_before_month_january.
  pose proof (days_before_month_december y). repeat split; lia.
Qed.

Lemma add_hours_24_timeline d e :
  valid d -> add_hours d 24 = Return e ->
  timeline e = timeline d + 24 * 3600 * 1000000.
Proof.
  intros Hv He. rewrite add_hours_24 in He by assumption.
  destruct (next_day_toordinal d e Hv He) as (Ho & Hh & Hm & Hs & Hu).
  unfold timeline. rewrite Ho, Hh, Hm, Hs, Hu. lia.
Qed.

Lemma toordinal_lt a b :
  valid a -> valid b ->
  year a < year b
  \/ (year a = year b /\ month a < month b)
  \/ (year a = year b /\ month a = month b /\ day a < day b) ->
  toordinal a < toordinal b.
Proof.
  intros Ha Hb H. apply valid_fields in Ha, Hb.
  destruct a as [y1 m1 d1 ? ? ? ?], b as [y2 m2 d2 ? ? ? ?]. simpl in *.
  unfold toordinal; simpl.
  destruct H as [H | [[-> H] | [-> [-> H]]]].
  - pose proof (days_before_month_end y1 m1 ltac:(lia)).
    pose proof (days_before_month_end y2 m2 ltac:(lia)).
    pose proof (days_before_year_succ y1).
    pose proof (days_before_year_mono (y1 + 1) y2 ltac:(lia)). lia.
  - pose proof (days_before_month_mono y2 m1 m2 ltac:(lia) H ltac:(lia)). lia.
  - lia.
Qed.

Lemma cmp_Lt_timeline a b :
  valid a -> valid b -> cmp a b = Lt -> timeline a < timeline b.
Proof.
  intros Ha Hb H.
  pose proof (toordinal_lt a b Ha Hb) as Hord.
  pose proof (valid_fields a Ha) as Fa. pose proof (valid_fields b Hb) as Fb.
  unfold cmp, lex in H. unfold timeline.
  destruct (Z.compare_spec (year a) (year b)) as [Ey|Ly|Gy]; try discriminate;
    [|specialize (Hord ltac:(lia)); lia].
  destruct (Z.compare_spec (month a) (month b)) as [Em|Lm|Gm]; try discriminate;
    [|specialize (Hord ltac:(lia)); lia].
  destruct (Z.compare_spec (day a) (day b)) as [Ed|Ld|Gd]; try discriminate;
    [|specialize (Hord ltac:(lia)); lia].
  assert (Ho : toordinal a = toordinal b) by (unfold toordinal; congruence).
  rewrite Ho. clear Hord.
  destruct (Z.compare_spec (hour a) (hour b)); try discriminate; [|lia].
  destruct (Z.compare_spec (minute a) (minute b)); try discriminate; [|lia].
  destruct (Z.compare_spec (second a) (second b)); try discriminate; [|lia].
  pose proof (proj1 (Z.compare_lt_iff _ _) H) as Hus. lia.
Qed.

Lemma cmp_Eq a b : cmp a b = Eq -> a = b.
Proof.
  unfold cmp, lex. intros H.
  destruct (Z.compare_spec (year a) (year b)); try discriminate.
  destruct (Z.compare_spec (month a) (month b)); try discriminate.
  destruct (Z.compare_spec (day a) (day b)); try discriminate.
  destruct (Z.compare_spec (hour a) (hour b)); try discriminate.
  destruct (Z.compare_spec (minute a) (minute b)); try discriminate.
  destruct (Z.compare_spec (second a) (second b)); try discriminate.
  apply Z.compare_eq in H.
  destruct a, b; simpl in *; congruence.
Qed.

Lemma cmp_antisym a b : cmp b a = CompOpp (cmp a b).
Proof.
  unfold cmp, lex.
  rewrite (Z.compare_antisym (year a)), (Z.compare_antisym (month a)),
    (Z.compare_antisym (day a)), (Z.compare_antisym (hour a)),
    (Z.compare_antisym (minute a)), (Z.compare_antisym (second a)),
    (Z.compare_antisym (microsecond a)).
  destruct (year a ?= year b), (month a ?= month b), (day a ?= day b),
    (hour a ?= hour b), (minute a ?= minute b), (second a ?= second b);
    reflexivity.
Qed.

(** Comparing two datetimes is comparing their places on the time line. *)
Lemma cmp_timeline a b :
  valid a -> valid b -> cmp a b = (timeline a ?= timeline b).
Proof.
  intros Ha Hb. destruct (cmp a b) eqn:C.
  - apply cmp_Eq in C. subst. symmetry. apply Z.compare_refl.
  - symmetry. apply Z.compare_lt_iff. apply cmp_Lt_timeline; assumption.
  - symmetry. apply Z.compare_gt_iff. apply cmp_Lt_timeline; try assumption.
    rewrite cmp_antisym, C. reflexivity.
Qed.

Lemma gtb_timeline a b :
  valid a -> valid b -> gtb a b = (timeline b <? timeline a).
Proof.
  intros Ha Hb. unfold gtb. rewrite cmp_timeline by assumption.
  rewrite Z.ltb_antisym, Z.leb_compare.
  destruct (timeline a ?= timeline b); reflexivity.
Qed.

Lemma leb_timeline a b :
  valid a -> valid b -> leb a b = (timeline a <=? timeline b).
Proof.
  intros Ha Hb. unfold leb. rewrite cmp_timeline by assumption.
  rewrite Z.leb_compare.
  destruct (timeline a ?= timeline b); reflexivity.
Qed.

Lemma fromisoformat_valid s d : fromisoformat s = Return d -> valid d.
Proof.
  unfold fromisoformat. destruct (parse_fields s) as [x|]; [|discriminate].
  destruct (validb x) eqn:V; [|discriminate].
  intros H. injection H as <-. exact V.
Qed.

End DatetimeFacts.

(* ===================================================================== *)
(** ** Digests and identifiers as text *)
(* ===================================================================== *)

Module TextFacts.
Import Bytes.

Lemma hex_digit_lower d : is_lower_hex (hex_digit d) = true.
Proof.
  unfold hex_digit.
  assert (H : 0 <= d mod 16 < 16) by (apply Z.mod_pos_bound; lia).
  generalize dependent (d mod 16). intros r H.
  assert (C : r = 0 \/ r = 1 \/ r = 2 \/ r = 3 \/ r = 4 \/ r = 5 \/ r = 6
              \/ r = 7 \/ r = 8 \/ r = 9 \/ r = 10 \/ r = 11 \/ r = 12
              \/ r = 13 \/ r = 14 \/ r = 15) by lia.
  repeat (destruct C as [-> | C]; [reflexivity|]).
  subst. reflexivity.
Qed.

Lemma hexlify_length bs : String.length (hexlify bs) = (2 * length bs)%nat.
Proof.
  unfold hexlify. induction bs as [|b bs IH]; [reflexivity|].
  simpl. rewrite IH. lia.
Qed.

Lemma hexlify_lower_hex bs : all_chars is_lower_hex (hexlify bs) = true.
Proof.
  unfold hexlify. induction bs as [|b bs IH]; [reflexivity|].
  simpl. rewrite !hex_digit_lower, IH. reflexivity.
Qed.

Lemma le_bytes_length n x : length (le_bytes n x) = n.
Proof.
  revert x. induction n as [|n IH]; intros x; simpl; [|rewrite IH]; reflexivity.
Qed.

Lemma be_bytes_length n x : length (be_bytes n x) = n.
Proof. unfold be_bytes. rewrite length_rev. apply le_bytes_length. Qed.

Lemma md5_digest_length msg : length (MD5.digest msg) = 16%nat.
Proof.
  unfold MD5.digest, MD5.serialise.
  destruct (fold_left MD5.compress (blocks (MD5.pad msg)) MD5.init)
    as [[[a b] c] d].
  reflexivity.
Qed.

Lemma md5_hexdigest_length s : String.length (MD5.hexdigest s) = 32%nat.
Proof.
  unfold MD5.hexdigest. rewrite hexlify_length, md5_digest_length. reflexivity.
Qed.

Lemma add_words_length u v :
  length u = length v -> length (SHA256.add_words u v) = length u.
Proof.
  revert v. induction u as [|x u IH]; intros [|y v] H; simpl in *;
    try reflexivity; try discriminate.
  rewrite IH by lia. reflexivity.
Qed.

Lemma round_length W v t : length (SHA256.round W v t) = length v.
Proof.
  unfold SHA256.round.
  do 9 (destruct v as [|? v]; [reflexivity|]). reflexivity.
Qed.

Lemma rounds_length W ts v :
  length (fold_left (SHA256.round W) ts v) = length v.
Proof.
  revert v. induction ts as [|t ts IH]; intros v; simpl; [reflexivity|].
  rewrite IH. apply round_length.
Qed.

Lemma compress_length H block :
  length (SHA256.compress H block) = length H.
Proof.
  unfold SHA256.compress. apply add_words_length.
  symmetry. apply rounds_length.
Qed.

Lemma compressions_length bs H :
  length (fold_left SHA256.compress bs H) = length H.
Proof.
  revert H. induction bs as [|b bs IH]; intros H; simpl; [reflexivity|].
  rewrite IH. apply compress_length.
Qed.

Lemma flat_map_be_bytes_length ws :
  length (flat_map (be_bytes 4) ws) = (4 * length ws)%nat.
Proof.
  induction ws as [|x ws IH]; [reflexivity|].
  cbn [flat_map]. rewrite length_app, be_bytes_length, IH. simpl. lia.
Qed.

Lemma sha256_digest_length msg : length (SHA256.digest msg) = 32%nat.
Proof.
  unfold SHA256.digest.
  rewrite flat_map_be_bytes_length, compressions_length. reflexivity.
Qed.

(** A SHA-256 hex digest is 64 lower-case hexadecimal digits. *)
Lemma sha256_hexdigest_length s : String.length (SHA256.hexdigest s) = 64%nat.
Proof.
  unfold SHA256.hexdigest. rewrite hexlify_length, sha256_digest_length.
  reflexivity.
Qed.

Lemma sha256_hexdigest_lower_hex s :
  all_chars is_lower_hex (SHA256.hexdigest s) = true.
Proof. apply hexlify_lower_hex. Qed.

Lemma prefix_length n : forall s,
  (n <= String.length s)%nat -> String.length (substring 0 n s) = n.
Proof.
  induction n as [|n IH]; intros [|c s] H; simpl in *; try reflexivity; try lia.
  rewrite IH by lia. reflexivity.
Qed.

Lemma prefix_all_chars P n : forall s,
  all_chars P s = true -> all_chars P (substring 0 n s) = true.
Proof.
  induction n as [|n IH]; intros [|c s] H; simpl in *; try reflexivity.
  apply andb_true_iff in H. destruct H as [Hc Hs].
  rewrite Hc, IH by assumption. reflexivity.
Qed.

Lemma upper_length s : String.length (upper s) = String.length s.
Proof. induction s as [|c s IH]; simpl; [|rewrite IH]; reflexivity. Qed.

Lemma upper_char_hex c : is_lower_hex c = true -> is_upper_hex (upper_char c) = true.
Proof.
  destruct c as [[] [] [] [] [] [] [] []]; vm_compute; intros H;
    first [reflexivity | discriminate H].
Qed.

Lemma upper_hex s :
  all_chars is_lower_hex s = true -> all_chars is_upper_hex (upper s) = true.
Proof.
  induction s as [|c s IH]; simpl; [reflexivity|].
  intros H. apply andb_true_iff in H. destruct H as [Hc Hs].
  rewrite upper_char_hex, IH by assumption. reflexivity.
Qed.

(** The hash part of a client identifier. *)
Lemma username_hash_shape u :
  let h := upper (substring 0 6 (MD5.hexdigest u)) in
  String.length h = 6%nat /\ all_chars is_upper_hex h = true.
Proof.
  split.
  - rewrite upper_length, prefix_length; [reflexivity|].
    rewrite md5_hexdigest_length. lia.
  - apply upper_hex, prefix_all_chars, hexlify_lower_hex.
Qed.

Lemma uuid_str_nonempty i : Uuid.str i <> "".
Proof.
  unfold Uuid.str. intros H. apply (f_equal String.length) in H.
  rewrite !length_append in H. simpl in H. lia.
Qed.

End TextFacts.

(* ===================================================================== *)
(** ** The operations, case by case *)
(* ===================================================================== *)

Lemma contains_true {A} (d : gmap string A) k :
  contains d k = true <-> is_Some (d !! k).
Proof.
  unfold contains. destruct (d !! k) as [v|]; split; intros H;
    try reflexivity; try discriminate; eauto.
  destruct H as [v H]. discriminate.
Qed.

Lemma contains_false {A} (d : gmap string A) k :
  contains d k = false <-> d !! k = None.
Proof.
  unfold contains. destruct (d !! k) as [v|]; split; intros H;
    try reflexivity; discriminate.
Qed.

Lemma sessions_of_write_sessions d w : sessions_of (write_sessions d w) = d.
Proof. reflexivity. Qed.

Lemma users_of_write_users d w : users_of (write_users d w) = d.
Proof. reflexivity. Qed.

Lemma logout_user_known w sid s :
  sessions_of w !! sid = Some s ->
  logout_user sid w = (Return tt, write_sessions (delete sid (sessions_of w)) w).
Proof.
  intros H. unfold logout_user, bind, load_sessions, save_sessions, ret.
  fold (sessions_of w). unfold contains. rewrite H. reflexivity.
Qed.

Lemma logout_user_unknown w sid :
  sessions_of w !! sid = None -> logout_user sid w = (Return tt, w).
Proof.
  intros H. unfold logout_user, bind, load_sessions, save_sessions, ret.
  fold (sessions_of w). unfold contains. rewrite H. reflexivity.
Qed.

Lemma validate_session_unknown w sid :
  sessions_of w !! sid = None ->
  validate_session sid w = (Return (false, None), w).
Proof.
  intros H. unfold validate_session, bind, load_sessions, ret.
  fold (sessions_of w). rewrite H. reflexivity.
Qed.

Lemma validate_session_expired w sid s E :
  sessions_of w !! sid = Some s ->
  Datetime.fromisoformat (Session.expires_at s) = Return E ->
  Datetime.gtb (current_time w) E = true ->
  validate_session sid w
  = (Return (false, None),
     write_sessions (delete sid (sessions_of w)) (tick w)).
Proof.
  intros Hs HE Hgt.
  unfold validate_session, bind, load_sessions, lift, datetime_now,
    save_sessions, ret.
  fold (sessions_of w). rewrite Hs, HE. fold (current_time w). rewrite Hgt.
  reflexivity.
Qed.

Lemma validate_session_live w sid s E :
  sessions_of w !! sid = Some s ->
  Datetime.fromisoformat (Session.expires_at s) = Return E ->
  Datetime.gtb (current_time w) E = false ->
  validate_session sid w = (Return (true, Some (Session.username s)), tick w).
Proof.
  intros Hs HE Hgt.
  unfold validate_session, bind, load_sessions, lift, datetime_now,
    save_sessions, ret.
  fold (sessions_of w). rewrite Hs, HE. fold (current_time w). rewrite Hgt.
  reflexivity.
Qed.

Lemma authenticate_user_unknown w u p :
  users_of w !! u = None ->
  authenticate_user u p w = (Return (false, None), w).
Proof.
  intros H. unfold authenticate_user, bind, load_users, ret.
  fold (users_of w). rewrite H. reflexivity.
Qed.

Lemma authenticate_user_mismatch w u p rec :
  users_of w !! u = Some rec ->
  User.password rec <> hash_password p ->
  authenticate_user u p w = (Return (false, None), w).
Proof.
  intros H Hne. unfold authenticate_user, bind, load_users, ret.
  fold (users_of w). rewrite H.
  apply String.eqb_neq in Hne. rewrite Hne. reflexivity.
Qed.

Lemma authenticate_user_match w u p rec :
  users_of w !! u = Some rec ->
  User.password rec = hash_password p ->
  let rec' := User.with_last_login rec (Datetime.isoformat (current_time w)) in
  authenticate_user u p w
  = (Return (true, Some rec'),
     write_users (<[u := rec']> (users_of w)) (tick w)).
Proof.
  intros H He. unfold authenticate_user, bind, load_users, ret, datetime_now,
    save_users.
  fold (users_of w). rewrite H.
  apply String.eqb_eq in He. rewrite He. reflexivity.
Qed.

(** What [create_session] does, by whether the expiry is representable. *)
Lemma create_session_eq w u :
  let sid := Uuid.str (Uuid.uuid4_int (urandom w (draws w))) in
  create_session u w
  = match Datetime.add_hours (clock w (S (ticks w))) 24 with
    | Return E =>
        (Return sid,
         write_sessions
           (<[sid := Session.mk u (Datetime.isoformat (current_time w))
                                (Datetime.isoformat E)]> (sessions_of w))
           (tick (tick (draw w))))
    | Raise e => (Raise e, tick (tick (draw w)))
    end.
Proof.
  unfold create_session, bind, uuid4_str, load_sessions, datetime_now, lift,
    save_sessions, ret. simpl.
  destruct (Datetime.add_hours (clock w (S (ticks w))) 24); reflexivity.
Qed.

Lemma role_allowed r :
  existsb (String.eqb r) ["investor"; "investee"] = true
  <-> (r = "investor" \/ r = "investee").
Proof.
  simpl. rewrite !orb_true_iff, !String.eqb_eq. intuition discriminate.
Qed.

Lemma role_refused r :
  existsb (String.eqb r) ["investor"; "investee"] = false
  <-> ~ (r = "investor" \/ r = "investee").
Proof.
  rewrite <- role_allowed.
  destruct (existsb (String.eqb r) ["investor"; "investee"]); split; intros H.
  - discriminate H.
  - exfalso. apply H. reflexivity.
  - intros H'. discriminate H'.
  - reflexivity.
Qed.

Lemma empty_field u p :
  String.eqb u "" || String.eqb p "" = true <-> (u = "" \/ p = "").
Proof. rewrite orb_true_iff, !String.eqb_eq. reflexivity. Qed.

Lemma no_empty_field u p :
  String.eqb u "" || String.eqb p "" = false <-> (u <> "" /\ p <> "").
Proof. rewrite orb_false_iff, !String.eqb_neq. reflexivity. Qed.

Section Register.

Variable title : string -> string.

Lemma register_user_duplicate w u p r :
  is_Some (users_of w !! u) ->
  register_user title u p r w = (Return (false, "Username already exists", ""), w).
Proof.
  intros H. apply contains_true in H.
  unfold register_user, bind, load_users, ret. fold (users_of w).
  rewrite H. reflexivity.
Qed.

Lemma register_user_empty_field w u p r :
  users_of w !! u = None -> u = "" \/ p = "" ->
  register_user title u p r w
  = (Return (false, "Username and password are required", ""), w).
Proof.
  intros H He. apply contains_false in H. apply empty_field in He.
  unfold register_user, bind, load_users, ret. fold (users_of w).
  rewrite H, He. reflexivity.
Qed.

Lemma register_user_bad_role w u p r :
  users_of w !! u = None -> u <> "" -> p <> "" ->
  ~ (r = "investor" \/ r = "investee") ->
  register_user title u p r w = (Return (false, "Invalid role selected", ""), w).
Proof.
  intros H Hu Hp Hr. apply contains_false in H.
  pose proof (proj2 (no_empty_field u p) (conj Hu Hp)) as He.
  apply role_refused in Hr.
  unfold register_user, bind, load_users, ret. fold (users_of w).
  rewrite H, He, Hr. reflexivity.
Qed.

Lemma register_user_accepted w u p r :
  users_of w !! u = None -> u <> "" -> p <> "" ->
  (r = "investor" \/ r = "investee") ->
  register_user title u p r w
  = match create_session u (registered_world title w u p r) with
    | (Return sid, w') =>
        (Return (true,
                 "User registered successfully! Client ID: "
                 +:+ registered_client_id w u r, sid), w')
    | (Raise e, w') => (Raise e, w')
    end.
Proof.
  intros H Hu Hp Hr. apply contains_false in H.
  pose proof (proj2 (no_empty_field u p) (conj Hu Hp)) as He.
  apply role_allowed in Hr.
  unfold register_user, bind, load_users. fold (users_of w).
  rewrite H, He, Hr. cbn [negb].
  unfold generate_client_id, bind, datetime_now, ret, save_users.
  fold (current_time w). cbn [ticks tick clock].
  fold (registered_client_id w u r). fold (registered_record title w u p r).
  change (write_users _ (tick (tick (tick w)))) with (registered_world title w u p r).
  destruct (create_session u (registered_world title w u p r)) as [[sid|e] w'];
    reflexivity.
Qed.

(** The four ways a registration can go. *)
Lemma register_user_cases w u p r :
  (is_Some (users_of w !! u)
   /\ register_user title u p r w
      = (Return (false, "Username already exists", ""), w))
  \/ (users_of w !! u = None /\ (u = "" \/ p = "")
      /\ register_user title u p r w
         = (Return (false, "Username and password are required", ""), w))
  \/ (users_of w !! u = None /\ u <> "" /\ p <> ""
      /\ ~ (r = "investor" \/ r = "investee")
      /\ register_user title u p r w
         = (Return (false, "Invalid role selected", ""), w))
  \/ (users_of w !! u = None /\ u <> "" /\ p <> ""
      /\ (r = "investor" \/ r = "investee")
      /\ register_user title u p r w
         = match create_session u (registered_world title w u p r) with
           | (Return sid, w') =>
               (Return (true,
                        "User registered successfully! Client ID: "
                        +:+ registered_client_id w u r, sid), w')
           | (Raise e, w') => (Raise e, w')
           end).
Proof.
  destruct (users_of w !! u) as [rec|] eqn:Hl.
  { left. split; [eauto|]. apply register_user_duplicate. rewrite Hl. eauto. }
  right.
  destruct (String.eqb u "" || String.eqb p "") eqn:He.
  { apply empty_field in He. left. split; [reflexivity|]. split; [assumption|].
    apply register_user_empty_field; assumption. }
  apply no_empty_field in He. destruct He as [Hu Hp]. right.
  destruct (existsb (String.eqb r) ["investor"; "investee"]) eqn:Hr.
  { apply role_allowed in Hr. right. repeat split; try assumption.
    apply register_user_accepted; assumption. }
  apply role_refused in Hr. left. repeat split; try assumption.
  apply register_user_bad_role; assumption.
Qed.

End Register.

(* ===================================================================== *)
(** ** Registration failures *)
(* ===================================================================== *)



(* ===================================================================== *)
(** ** Failed calls write nothing *)
(* ===================================================================== *)

(** C10.  Whenever [register_user] returns ok = false, and whenever
    [authenticate_user] returns ok = false, the world is left as it was:
    neither users.json nor sessions.json is written. *)
Theorem failed_calls_write_nothing
    (title : string -> string) (w : world) (u p r : string) :
  (forall msg sid,
     fst (register_user title u p r w) = Return (false, msg, sid) ->
     let w' := snd (register_user title u p r w) in
     w' = w /\ users_file w' = users_file w
     /\ sessions_file w' = sessions_file w)
  /\ (forall rec,
        fst (authenticate_user u p w) = Return (false, rec) ->
        let w' := snd (authenticate_user u p w) in
        w' = w /\ users_file w' = users_file w
        /\ sessions_file w' = sessions_file w).
Proof.
  split.
  - intros msg sid.
    destruct (register_user_cases title w u p r)
      as [[Hd E] | [[Hn [He E]] | [[Hn [Hu [Hp [Hr E]]]] | [Hn [Hu [Hp [Hr E]]]]]]];
      rewrite E; simpl; auto.
    destruct (create_session u (registered_world title w u p r))
      as [[s|e] w']; simpl; intros H; discriminate H.
  - intros rec.
    destruct (users_of w !! u) as [x|] eqn:Hl.
    + destruct (String.eqb (User.password x) (hash_password p)) eqn:Hp.
      * apply String.eqb_eq in Hp.
        rewrite (authenticate_user_match w u p x Hl Hp). simpl.
        intros H. discriminate H.
      * apply String.eqb_neq in Hp.
        rewrite (authenticate_user_mismatch w u p x Hl Hp). simpl. auto.
    + rewrite (authenticate_user_unknown w u p Hl). simpl. auto.
Qed.

(* ===================================================================== *)
(** ** Authentication failures *)
(* ===================================================================== *)

(** C7.  In any user store, a failed authentication for an unknown
    username and a failed authentication for a known username with a
    password whose hash differs from the stored one give the identical
    result, (False, None), and leave the same world: the caller cannot
    tell the two causes apart. *)
Theorem authenticate_failures_look_alike
    (w : world) (u1 p1 u2 p2 : string) (rec : User.t) :
  users_of w !! u1 = None ->
  users_of w !! u2 = Some rec ->
  User.password rec <> hash_password p2 ->
  fst (authenticate_user u1 p1 w) = Return (false, None)
  /\ fst (authenticate_user u2 p2 w) = Return (false, None)
  /\ authenticate_user u1 p1 w = authenticate_user u2 p2 w.
Proof.
  intros H1 H2 Hne.
  rewrite (authenticate_user_unknown w u1 p1 H1).
  rewrite (authenticate_user_mismatch w u2 p2 rec H2 Hne).
  repeat split; reflexivity.
Qed.

(* ===================================================================== *)
(** ** Logout *)
(* ===================================================================== *)

(** C6.  [logout_user] never raises.  If the token is present its record
    is deleted and sessions.json is rewritten; if it is absent the world
    is untouched.  A second call with the same token changes nothing, and
    after one call or two the token is absent from the store. *)
Theorem logout_user_idempotent (w : world) (sid : string) :
  let w1 := snd (logout_user sid w) in
  let w2 := snd (logout_user sid w1) in
  fst (logout_user sid w) = Return tt
  /\ (is_Some (sessions_of w !! sid) ->
      sessions_file w1 = Stored (delete sid (sessions_of w)))
  /\ (sessions_of w !! sid = None -> w1 = w)
  /\ users_file w1 = users_file w
  /\ fst (logout_user sid w1) = Return tt
  /\ w2 = w1
  /\ sessions_of w1 !! sid = None
  /\ sessions_of w2 !! sid = None.
Proof.
  cbv zeta.
  assert (Habsent : sessions_of (snd (logout_user sid w)) !! sid = None).
  { destruct (sessions_of w !! sid) as [s|] eqn:Hl.
    - rewrite (logout_user_known w sid s Hl). simpl.
      rewrite sessions_of_write_sessions. apply lookup_delete_eq.
    - rewrite (logout_user_unknown w sid Hl). simpl. exact Hl. }
  rewrite (logout_user_unknown _ sid Habsent). simpl.
  destruct (sessions_of w !! sid) as [s|] eqn:Hl.
  - rewrite (logout_user_known w sid s Hl) in *. simpl in *.
    repeat split; try reflexivity; try assumption.
    intros H. discriminate H.
  - rewrite (logout_user_unknown w sid Hl) in *. simpl in *.
    repeat split; try reflexivity; try assumption.
    intros [x Hx]. discriminate Hx.
Qed.

(* ===================================================================== *)
(** ** Session expiry *)
(* ===================================================================== *)

Lemma create_session_users_file u w :
  users_file (snd (create_session u w)) = users_file w.
Proof.
  pose proof (create_session_eq w u) as E. cbv zeta in E. rewrite E.
  destruct (Datetime.add_hours (clock w (S (ticks w))) 24); reflexivity.
Qed.

(** C1.  A session created when the clock reads T (the reading
    [create_session] takes for the expiry) is stored with
    expires_at = T + 24 hours.  While that record is in the store,
    [validate_session] of its token returns (True, username) whenever the
    current time is less than or equal to expires_at, in particular at the
    expiry instant itself, and (False, None) whenever the current time is
    strictly greater. *)
Theorem session_valid_until_expiry (w : world) (u sid : string) :
  clock_valid w ->
  fst (create_session u w) = Return sid ->
  let T := clock w (S (ticks w)) in
  let w1 := snd (create_session u w) in
  exists E,
    Datetime.add_hours T 24 = Return E
    /\ Datetime.timeline E = Datetime.timeline T + 24 * 3600 * 1000000
    /\ sessions_of w1 !! sid
       = Some (Session.mk u (Datetime.isoformat (current_time w))
                          (Datetime.isoformat E))
    /\ forall w2,
         Datetime.valid (current_time w2) ->
         sessions_of w2 !! sid = sessions_of w1 !! sid ->
         (Datetime.timeline (current_time w2) <= Datetime.timeline E ->
          fst (validate_session sid w2) = Return (true, Some u))
         /\ (current_time w2 = E ->
             fst (validate_session sid w2) = Return (true, Some u))
         /\ (Datetime.timeline E < Datetime.timeline (current_time w2) ->
             fst (validate_session sid w2) = Return (false, None)).
Proof.
  intros Hclock Hsid. cbv zeta.
  pose proof (create_session_eq w u) as Eq. cbv zeta in Eq.
  rewrite Eq in *. clear Eq.
  destruct (Datetime.add_hours (clock w (S (ticks w))) 24) as [E|e] eqn:HE;
    [|discriminate Hsid].
  simpl in Hsid. injection Hsid as <-.
  exists E. split; [reflexivity|].
  split; [apply DatetimeFacts.add_hours_24_timeline; [apply Hclock | exact HE]|].
  assert (Hv : Datetime.valid E)
    by (eapply DatetimeFacts.add_hours_24_valid; [apply Hclock | exact HE]).
  cbn [snd]. rewrite sessions_of_write_sessions, lookup_insert_eq.
  split; [reflexivity|].
  intros w2 Hnow Hw2.
  pose proof (DatetimeFacts.fromisoformat_isoformat E Hv) as Hparse.
  pose proof (DatetimeFacts.gtb_timeline (current_time w2) E Hnow Hv) as Hgtb.
  assert (Hlive : Datetime.timeline (current_time w2) <= Datetime.timeline E ->
                  fst (validate_session (Uuid.str (Uuid.uuid4_int (urandom w (draws w)))) w2)
                  = Return (true, Some u)).
  { intros Hle.
    rewrite (validate_session_live w2 _ _ E Hw2 Hparse); [reflexivity|].
    rewrite Hgtb. apply Z.ltb_ge. exact Hle. }
  split; [exact Hlive|]. split.
  - intros Heq. apply Hlive. rewrite Heq. lia.
  - intros Hgt.
    rewrite (validate_session_expired w2 _ _ E Hw2 Hparse); [reflexivity|].
    rewrite Hgtb. apply Z.ltb_lt. exact Hgt.
Qed.

(** C2.  If the stored expiry of a token is strictly in the past,
    [validate_session] returns (False, None), deletes that record and no
    other, and rewrites sessions.json; the token is then absent from the
    stored collection, and validating it again finds nothing. *)
Theorem expired_session_is_evicted
    (w : world) (sid : string) (s : Session.t) (E : Datetime.datetime) :
  Datetime.valid (current_time w) ->
  sessions_of w !! sid = Some s ->
  Datetime.fromisoformat (Session.expires_at s) = Return E ->
  Datetime.timeline E < Datetime.timeline (current_time w) ->
  let w' := snd (validate_session sid w) in
  fst (validate_session sid w) = Return (false, None)
  /\ sessions_file w' = Stored (delete sid (sessions_of w))
  /\ users_file w' = users_file w
  /\ sessions_of w' !! sid = None
  /\ (forall other, other <> sid ->
        sessions_of w' !! other = sessions_of w !! other)
  /\ validate_session sid w' = (Return (false, None), w').
Proof.
  intros Hnow Hs HE Hlt. cbv zeta.
  assert (Hgt : Datetime.gtb (current_time w) E = true).
  { rewrite DatetimeFacts.gtb_timeline;
      [apply Z.ltb_lt; exact Hlt | exact Hnow |].
    eapply DatetimeFacts.fromisoformat_valid. exact HE. }
  rewrite (validate_session_expired w sid s E Hs HE Hgt). cbn [fst snd].
  assert (Hgone : sessions_of (write_sessions (delete sid (sessions_of w)) (tick w))
                  !! sid = None)
    by (rewrite sessions_of_write_sessions; apply lookup_delete_eq).
  repeat split; try reflexivity; try assumption.
  - intros other Hne. rewrite sessions_of_write_sessions.
    apply lookup_delete_ne. congruence.
  - apply validate_session_unknown. exact Hgone.
Qed.

(* ===================================================================== *)
(** ** Registration, then authentication *)
(* ===================================================================== *)

Lemma register_user_returned_true title w u p r msg sid :
  fst (register_user title u p r w) = Return (true, msg, sid) ->
  users_of w !! u = None /\ u <> "" /\ p <> ""
  /\ (r = "investor" \/ r = "investee")
  /\ fst (create_session u (registered_world title w u p r)) = Return sid
  /\ snd (register_user title u p r w)
     = snd (create_session u (registered_world title w u p r))
  /\ msg = "User registered successfully! Client ID: "
           +:+ registered_client_id w u r.
Proof.
  destruct (register_user_cases title w u p r)
    as [[Hd E] | [[Hn [He E]] | [[Hn [Hu [Hp [Hr E]]]] | [Hn [Hu [Hp [Hr E]]]]]]];
    rewrite E; simpl; try (intros H; discriminate H).
  destruct (create_session u (registered_world title w u p r)) as [[s|e] w'];
    simpl; intros H; [|discriminate H].
  inversion H; subst. repeat split; try assumption; reflexivity.
Qed.

Lemma registered_user_stored title w u p r msg sid :
  fst (register_user title u p r w) = Return (true, msg, sid) ->
  users_of (snd (register_user title u p r w))
  = <[u := registered_record title w u p r]> (users_of w).
Proof.
  intros H. apply register_user_returned_true in H.
  destruct H as (_ & _ & _ & _ & _ & -> & _).
  unfold users_of at 1. rewrite create_session_users_file. reflexivity.
Qed.

(** C3.  If [register_user u p r] returns ok = true, then
    [authenticate_user u p] called next returns ok = true with the user
    record, which is the record registration stored with its last login
    refreshed, and is what the store then holds for [u]. *)
Theorem authenticate_after_register
    (title : string -> string) (w : world) (u p r msg sid : string) :
  fst (register_user title u p r w) = Return (true, msg, sid) ->
  let w1 := snd (register_user title u p r w) in
  let rec := User.with_last_login (registered_record title w u p r)
               (Datetime.isoformat (current_time w1)) in
  users_of w1 !! u = Some (registered_record title w u p r)
  /\ fst (authenticate_user u p w1) = Return (true, Some rec)
  /\ users_of (snd (authenticate_user u p w1)) !! u = Some rec.
Proof.
  intros H. cbv zeta.
  pose proof (registered_user_stored title w u p r msg sid H) as Hst.
  assert (Hl : users_of (snd (register_user title u p r w)) !! u
               = Some (registered_record title w u p r))
    by (rewrite Hst; apply lookup_insert_eq).
  split; [exact Hl|].
  pose proof (authenticate_user_match _ u p _ Hl eq_refl) as Ha.
  cbv zeta in Ha. rewrite Ha. cbn [fst snd].
  split; [reflexivity|].
  rewrite users_of_write_users. apply lookup_insert_eq.
Qed.

(* ===================================================================== *)
(** ** The invariant of the user store *)
(* ===================================================================== *)

Lemma hash_password_length p : String.length (hash_password p) = 64%nat.
Proof. apply TextFacts.sha256_hexdigest_length. Qed.

Lemma hash_password_nonempty p : hash_password p <> "".
Proof.
  intros H. pose proof (hash_password_length p) as L. rewrite H in L.
  discriminate L.
Qed.

(** A password that is not itself 64 characters long is never stored as
    it is. *)
Lemma hash_password_differs_by_length p :
  String.length p <> 64%nat -> hash_password p <> p.
Proof.
  intros Hlen H. apply Hlen. rewrite <- H at 1. apply hash_password_length.
Qed.

(** Nor is a password with a character outside [0-9a-f]. *)
Lemma hash_password_differs_by_alphabet p :
  all_chars is_lower_hex p = false -> hash_password p <> p.
Proof.
  intros Hc H. rewrite <- H in Hc.
  unfold hash_password in Hc.
  rewrite TextFacts.sha256_hexdigest_lower_hex in Hc. discriminate Hc.
Qed.

Lemma users_invariant_keys (users : gmap string User.t) :
  NoDup (map fst (map_to_list users)).
Proof. apply (NoDup_fst_map_to_list users). Qed.

Lemma users_invariant_empty : users_invariant ∅.
Proof.
  split; [apply users_invariant_keys|].
  intros name u H. rewrite lookup_empty in H. discriminate H.
Qed.

Lemma users_invariant_insert (users : gmap string User.t) name rec :
  users_invariant users -> user_ok rec ->
  users_invariant (<[name := rec]> users).
Proof.
  intros [_ Hall] Hok. split; [apply users_invariant_keys|].
  intros n u Hl. destruct (decide (name = n)) as [->|Hne].
  - rewrite lookup_insert_eq in Hl. injection Hl as <-. exact Hok.
  - rewrite lookup_insert_ne in Hl by assumption. eapply Hall. exact Hl.
Qed.

Lemma validate_session_users_file sid w :
  users_file (snd (validate_session sid w)) = users_file w.
Proof.
  unfold validate_session, bind, load_sessions, lift, datetime_now,
    save_sessions, ret.
  destruct (load_or_empty (sessions_file w) !! sid) as [s|]; [|reflexivity].
  destruct (Datetime.fromisoformat (Session.expires_at s)) as [E|e];
    [|reflexivity].
  cbn [fst snd].
  destruct (Datetime.gtb (clock w (ticks w)) E); reflexivity.
Qed.

Lemma logout_user_users_file sid w :
  users_file (snd (logout_user sid w)) = users_file w.
Proof.
  destruct (sessions_of w !! sid) as [s|] eqn:Hl.
  - rewrite (logout_user_known w sid s Hl). reflexivity.
  - rewrite (logout_user_unknown w sid Hl). reflexivity.
Qed.

Lemma register_user_users_invariant title w u p r :
  users_invariant (users_of w) ->
  users_invariant (users_of (snd (register_user title u p r w))).
Proof.
  intros Hinv.
  destruct (register_user_cases title w u p r)
    as [[Hd E] | [[Hn [He E]] | [[Hn [Hu [Hp [Hr E]]]] | [Hn [Hu [Hp [Hr E]]]]]]];
    rewrite E; try exact Hinv.
  assert (Hw : users_of (snd (create_session u (registered_world title w u p r)))
               = <[u := registered_record title w u p r]> (users_of w))
    by (unfold users_of at 1; rewrite create_session_users_file; reflexivity).
  destruct (create_session u (registered_world title w u p r)) as [[s|e] w'];
    cbn [snd] in *; rewrite Hw;
    (apply users_invariant_insert; [exact Hinv|]);
    (split; [exact Hr | apply hash_password_nonempty]).
Qed.

Lemma authenticate_user_users_invariant w u p :
  users_invariant (users_of w) ->
  users_invariant (users_of (snd (authenticate_user u p w))).
Proof.
  intros Hinv.
  destruct (users_of w !! u) as [x|] eqn:Hl.
  - destruct (String.eqb (User.password x) (hash_password p)) eqn:Hp.
    + apply String.eqb_eq in Hp.
      pose proof (authenticate_user_match w u p x Hl Hp) as E.
      cbv zeta in E. rewrite E. cbn [snd]. rewrite users_of_write_users.
      apply users_invariant_insert; [exact Hinv|].
      destruct Hinv as [_ Hall]. exact (Hall u x Hl).
    + apply String.eqb_neq in Hp.
      rewrite (authenticate_user_mismatch w u p x Hl Hp). exact Hinv.
  - rewrite (authenticate_user_unknown w u p Hl). exact Hinv.
Qed.

(** C5.  Each of the six operations, whether it returns or raises, leaves
    a user store in which no two records share a username, every role is
    one of the two roles, and every password hash is non-empty, provided
    the store it found was so. *)
Theorem operations_preserve_users_invariant
    (title : string -> string) (c : call) (w : world) :
  users_invariant (users_of w) ->
  users_invariant (users_of (after title c w)).
Proof.
  intros Hinv. destruct c as [u p r | u p | u | sid | sid | u]; cbn [after].
  - apply register_user_users_invariant. exact Hinv.
  - apply authenticate_user_users_invariant. exact Hinv.
  - unfold users_of. rewrite create_session_users_file. exact Hinv.
  - unfold users_of. rewrite validate_session_users_file. exact Hinv.
  - unfold users_of. rewrite logout_user_users_file. exact Hinv.
  - exact Hinv.
Qed.

(* ===================================================================== *)
(** ** The client identifier *)
(* ===================================================================== *)

(** C8.  After a successful registration the message ends with the client
    identifier, which is also the one stored: the role prefix (INV for an
    investor, IVE for an investee), an underscore, the first six
    hexadecimal digits of the MD5 of the username in upper case, an
    underscore, and the eight digits of the date of registration; and the
    session id returned is not empty. *)
Theorem registered_client_id_format
    (title : string -> string) (w : world) (u p r msg sid : string) :
  clock_ok w ->
  fst (register_user title u p r w) = Return (true, msg, sid) ->
  exists prefix h d : string,
    msg = "User registered successfully! Client ID: "
          +:+ prefix +:+ "_" +:+ h +:+ "_" +:+ d
    /\ ((r = "investor" /\ prefix = "INV") \/ (r = "investee" /\ prefix = "IVE"))
    /\ h = upper (substring 0 6 (MD5.hexdigest u))
    /\ String.length h = 6%nat /\ all_chars is_upper_hex h = true
    /\ d = Datetime.strftime_Ymd (current_time w)
    /\ String.length d = 8%nat /\ all_chars is_digit d = true
    /\ User.client_id <$> users_of (snd (register_user title u p r w)) !! u
       = Some (prefix +:+ "_" +:+ h +:+ "_" +:+ d)
    /\ sid <> "".
Proof.
  intros Hclock H.
  pose proof (registered_user_stored title w u p r msg sid H) as Hst.
  apply register_user_returned_true in H.
  destruct H as (Hn & Hu & Hp & Hr & Hsid & Hw & ->).
  destruct (Hclock (ticks w)) as [Hv Hy]. fold (current_time w) in Hv, Hy.
  destruct (DatetimeFacts.strftime_Ymd_shape _ Hv Hy) as [Hdl Hdd].
  destruct (TextFacts.username_hash_shape u) as [Hhl Hhh].
  exists (if String.eqb r "investor" then "INV" else "IVE"),
         (upper (substring 0 6 (MD5.hexdigest u))),
         (Datetime.strftime_Ymd (current_time w)).
  split; [reflexivity|]. split.
  { destruct Hr as [-> | ->]; [left | right]; split; reflexivity. }
  repeat (split; [first [reflexivity | assumption]|]).
  split.
  - rewrite Hst, lookup_insert_eq. reflexivity.
  - pose proof (create_session_eq (registered_world title w u p r) u) as Eq.
    cbv zeta in Eq. rewrite Eq in Hsid.
    destruct (Datetime.add_hours _ 24); [|discriminate Hsid].
    injection Hsid as <-. apply TextFacts.uuid_str_nonempty.
Qed.

(* ===================================================================== *)
(** ** The theorems at work on a concrete installation *)
(* ===================================================================== *)

Lemma demo_readings_valid n : Datetime.valid (Demo.readings n).
Proof.
  assert (H : 0 <= Z.of_nat n mod 60 < 60) by (apply Z.mod_pos_bound; lia).
  apply DatetimeFacts.fields_valid; simpl; try lia.
  change (Datetime.days_in_month 2024 1) with 31. lia.
Qed.

Lemma demo_clock_valid : clock_valid Demo.fresh.
Proof. intros n. apply demo_readings_valid. Qed.

Lemma demo_clock_ok : clock_ok Demo.fresh.
Proof. intros n. split; [apply demo_readings_valid | simpl; lia]. Qed.

Example register_alice :
  fst (register_user Demo.title "alice" "secret1" "investor" Demo.fresh)
  = Return (true, "User registered successfully! Client ID: INV_6384E2_20240115",
            Demo.token).
Proof. vm_compute. reflexivity. Qed.

Example register_alice_again :
  fst (register_user Demo.title "alice" "other" "investee" Demo.registered)
  = Return (false, "Username already exists", "").
Proof. vm_compute. reflexivity. Qed.

Example register_empty_username :
  fst (register_user Demo.title "" "x" "investor" Demo.fresh)
  = Return (false, "Username and password are required", "").
Proof. vm_compute. reflexivity. Qed.

Example register_empty_username_bad_role :
  fst (register_user Demo.title "" "x" "bogus" Demo.fresh)
  = Return (false, "Username and password are required", "").
Proof. vm_compute. reflexivity. Qed.

Example authenticate_alice_wrong_password :
  fst (authenticate_user "alice" "wrongpass" Demo.registered)
  = Return (false, None).
Proof. vm_compute. reflexivity. Qed.

Example validate_alice_at_expiry :
  fst (validate_session Demo.token
         (Demo.at_time (Datetime.mk 2024 1 16 10 30 4 0) Demo.registered))
  = Return (true, Some "alice").
Proof. vm_compute. reflexivity. Qed.

Example validate_alice_after_expiry :
  fst (validate_session Demo.token
         (Demo.at_time (Datetime.mk 2024 1 16 10 30 4 1) Demo.registered))
  = Return (false, None).
Proof. vm_compute. reflexivity. Qed.

Lemma session_valid_until_expiry_witness :
  exists E,
    Datetime.add_hours (clock Demo.fresh (S (ticks Demo.fresh))) 24 = Return E
    /\ Datetime.timeline E
       = Datetime.timeline (clock Demo.fresh (S (ticks Demo.fresh)))
         + 24 * 3600 * 1000000
    /\ sessions_of (snd (create_session "alice" Demo.fresh)) !! Demo.token
       = Some (Session.mk "alice" (Datetime.isoformat (current_time Demo.fresh))
                          (Datetime.isoformat E))
    /\ forall w2,
         Datetime.valid (current_time w2) ->
         sessions_of w2 !! Demo.token
         = sessions_of (snd (create_session "alice" Demo.fresh)) !! Demo.token ->
         (Datetime.timeline (current_time w2) <= Datetime.timeline E ->
          fst (validate_session Demo.token w2) = Return (true, Some "alice"))
         /\ (current_time w2 = E ->
             fst (validate_session Demo.token w2) = Return (true, Some "alice"))
         /\ (Datetime.timeline E < Datetime.timeline (current_time w2) ->
             fst (validate_session Demo.token w2) = Return (false, None)).
Proof.
  apply (session_valid_until_expiry Demo.fresh "alice" Demo.token).
  - exact demo_clock_valid.
  - vm_compute. reflexivity.
Defined.

Lemma expired_session_is_evicted_witness :
  let w := Demo.at_time (Datetime.mk 2024 1 17 0 0 0 0) Demo.registered in
  let w' := snd (validate_session Demo.token w) in
  fst (validate_session Demo.token w) = Return (false, None)
  /\ sessions_file w' = Stored (delete Demo.token (sessions_of w))
  /\ users_file w' = users_file w
  /\ sessions_of w' !! Demo.token = None
  /\ (forall other, other <> Demo.token ->
        sessions_of w' !! other = sessions_of w !! other)
  /\ validate_session Demo.token w' = (Return (false, None), w').
Proof.
  apply (expired_session_is_evicted
           (Demo.at_time (Datetime.mk 2024 1 17 0 0 0 0) Demo.registered)
           Demo.token
           (Session.mk "alice" "2024-01-15T10:30:03" "2024-01-16T10:30:04")
           (Datetime.mk 2024 1 16 10 30 4 0)).
  - vm_compute. reflexivity.
  - vm_compute. reflexivity.
  - vm_compute. reflexivity.
  - vm_compute. reflexivity.
Defined.

Lemma authenticate_after_register_witness :
  let w1 := snd (register_user Demo.title "alice" "secret1" "investor" Demo.fresh) in
  let rec := User.with_last_login
               (registered_record Demo.title Demo.fresh "alice" "secret1" "investor")
               (Datetime.isoformat (current_time w1)) in
  users_of w1 !! "alice"
  = Some (registered_record Demo.title Demo.fresh "alice" "secret1" "investor")
  /\ fst (authenticate_user "alice" "secret1" w1) = Return (true, Some rec)
  /\ users_of (snd (authenticate_user "alice" "secret1" w1)) !! "alice" = Some rec.
Proof.
  apply (authenticate_after_register Demo.title Demo.fresh "alice" "secret1"
           "investor"
           "User registered successfully! Client ID: INV_6384E2_20240115"
           Demo.token).
  vm_compute. reflexivity.
Defined.

Lemma operations_preserve_users_invariant_witness :
  users_invariant (users_of Demo.registered)
  /\ users_invariant
       (users_of (after Demo.title (Authenticate "alice" "secret1") Demo.registered)).
Proof.
  assert (H : users_invariant (users_of Demo.registered)).
  { apply (operations_preserve_users_invariant Demo.title
             (Register "alice" "secret1" "investor") Demo.fresh).
    exact users_invariant_empty. }
  split; [exact H|].
  apply (operations_preserve_users_invariant Demo.title
           (Authenticate "alice" "secret1") Demo.registered).
  exact H.
Defined.

Lemma authenticate_failures_look_alike_witness :
  fst (authenticate_user "bob" "secret1" Demo.registered) = Return (false, None)
  /\ fst (authenticate_user "alice" "wrongpass" Demo.registered)
     = Return (false, None)
  /\ authenticate_user "bob" "secret1" Demo.registered
     = authenticate_user "alice" "wrongpass" Demo.registered.
Proof.
  apply (authenticate_failures_look_alike Demo.registered
           "bob" "secret1" "alice" "wrongpass"
           (registered_record Demo.title Demo.fresh "alice" "secret1" "investor")).
  - vm_compute. reflexivity.
  - vm_compute. reflexivity.
  - vm_compute. intros H. discriminate H.
Defined.

Lemma registered_client_id_format_witness :
  exists prefix h d : string,
    "User registered successfully! Client ID: INV_6384E2_20240115"
    = "User registered successfully! Client ID: "
      +:+ prefix +:+ "_" +:+ h +:+ "_" +:+ d
    /\ (("investor" = "investor" /\ prefix = "INV")
        \/ ("investor" = "investee" /\ prefix = "IVE"))
    /\ h = upper (substring 0 6 (MD5.hexdigest "alice"))
    /\ String.length h = 6%nat /\ all_chars is_upper_hex h = true
    /\ d = Datetime.strftime_Ymd (current_time Demo.fresh)
    /\ String.length d = 8%nat /\ all_chars is_digit d = true
    /\ User.client_id <$> users_of Demo.registered !! "alice"
       = Some (prefix +:+ "_" +:+ h +:+ "_" +:+ d)
    /\ Demo.token <> "".
Proof.
  apply (registered_client_id_format Demo.title Demo.fresh "alice" "secret1"
           "investor").
  - exact demo_clock_ok.
  - vm_compute. reflexivity.
Defined.

(* ===================================================================== *)
(** ** Further properties of [AuthManager] *)
(* ===================================================================== *)

Lemma init_eq w :
  init w
  = (Return tt,
     mkWorld (match users_file w with Missing => Stored ∅ | f => f end)
             (match sessions_file w with Missing => Stored ∅ | f => f end)
             (clock w) (ticks w) (urandom w) (draws w)).
Proof.
  unfold init, ensure_files_exist, bind, ret, save_users, save_sessions,
    write_users, write_sessions.
  destruct w as [uf sf c t r d]; destruct uf, sf; reflexivity.
Qed.

(** X1.  Constructing the manager never raises and never overwrites a file
    that exists, readable or not: it creates the missing ones holding an
    empty dictionary, so that both exist afterwards, the dictionaries that
    would be loaded are the same as before, and doing it again changes
    nothing. *)
Theorem init_creates_missing_files_only (w : world) :
  let w' := snd (init w) in
  fst (init w) = Return tt
  /\ exists_file (users_file w') = true
  /\ exists_file (sessions_file w') = true
  /\ (exists_file (users_file w) = true -> users_file w' = users_file w)
  /\ (exists_file (sessions_file w) = true ->
      sessions_file w' = sessions_file w)
  /\ (users_file w = Missing -> users_file w' = Stored ∅)
  /\ (sessions_file w = Missing -> sessions_file w' = Stored ∅)
  /\ users_of w' = users_of w
  /\ sessions_of w' = sessions_of w
  /\ init w' = (Return tt, w').
Proof.
  cbv zeta. rewrite !init_eq. cbn [fst snd].
  destruct w as [uf sf c t r d]. unfold users_of, sessions_of.
  cbn [users_file sessions_file clock ticks urandom draws].
  destruct uf, sf; cbn; repeat split; intros; try reflexivity;
    discriminate.
Qed.


(** X2.  After a successful registration, [get_user_info] of the new name
    returns the record just stored, with the role asked for, the hash of
    the password and the client identifier of the message; every other
    name gets what it got before; and the lookup leaves the world as it
    is. *)
Theorem get_user_info_after_register
    (title : string -> string) (w : world) (u p r msg sid : string) :
  fst (register_user title u p r w) = Return (true, msg, sid) ->
  let w1 := snd (register_user title u p r w) in
  let rec := registered_record title w u p r in
  get_user_info u w1 = (Return (Some rec), w1)
  /\ User.role rec = r
  /\ User.password rec = hash_password p
  /\ msg = "User registered successfully! Client ID: " +:+ User.client_id rec
  /\ forall other, other <> u ->
       fst (get_user_info other w1) = fst (get_user_info other w)
       /\ snd (get_user_info other w1) = w1.
Proof.
  intros H. cbv zeta.
  pose proof (registered_user_stored title w u p r msg sid H) as Hst.
  apply register_user_returned_true in H.
  destruct H as (_ & _ & _ & _ & _ & _ & ->).
  unfold get_user_info, bind, load_users, ret. cbn [fst snd].
  fold (users_of (snd (register_user title u p r w))). fold (users_of w).
  rewrite Hst, lookup_insert_eq.
  repeat split; try reflexivity.
  rewrite lookup_insert_ne by congruence. reflexivity.
Qed.

(** X3.  Whatever it returns or raises, [validate_session] never touches
    users.json, never creates or alters a session, and never removes the
    session of another token: the only change it can make to the store is
    to drop the record of the token it was given. *)
Theorem validate_session_only_evicts (w : world) (sid : string) :
  let w' := snd (validate_session sid w) in
  users_file w' = users_file w
  /\ (sessions_of w' !! sid = sessions_of w !! sid
      \/ sessions_of w' !! sid = None)
  /\ forall other, other <> sid ->
       sessions_of w' !! other = sessions_of w !! other.
Proof.
  cbv zeta. split; [apply validate_session_users_file|].
  unfold validate_session, bind, load_sessions, lift, datetime_now,
    save_sessions, ret.
  fold (sessions_of w).
  destruct (sessions_of w !! sid) as [s|] eqn:Hl;
    [|cbn [snd]; rewrite Hl; split; [left|]; reflexivity].
  destruct (Datetime.fromisoformat (Session.expires_at s)) as [E|e];
    [|cbn [snd]; rewrite Hl; split; [left|]; reflexivity].
  cbn [fst snd].
  destruct (Datetime.gtb (clock w (ticks w)) E); cbn [snd].
  - rewrite sessions_of_write_sessions. split.
    + right. apply lookup_delete_eq.
    + intros other Hne. apply lookup_delete_ne. congruence.
  - split; [left; exact Hl | reflexivity].
Qed.

(** X4.  Once [logout_user] has been called for a token, [validate_session]
    rejects that token whatever the clock reads and changes nothing; the
    verdict on every other token is what it was before the logout. *)
Theorem logged_out_token_is_rejected (w : world) (sid : string) :
  let w1 := snd (logout_user sid w) in
  validate_session sid w1 = (Return (false, None), w1)
  /\ users_file w1 = users_file w
  /\ forall other, other <> sid ->
       fst (validate_session other w1) = fst (validate_session other w).
Proof.
  cbv zeta.
  destruct (sessions_of w !! sid) as [s|] eqn:Hl.
  - rewrite (logout_user_known w sid s Hl). cbn [snd].
    split; [|split; [reflexivity|]].
    + apply validate_session_unknown.
      rewrite sessions_of_write_sessions. apply lookup_delete_eq.
    + intros other Hne.
      unfold validate_session, bind, load_sessions, lift, datetime_now, ret.
      fold (sessions_of w).
      fold (sessions_of (write_sessions (delete sid (sessions_of w)) w)).
      rewrite sessions_of_write_sessions, lookup_delete_ne by congruence.
      destruct (sessions_of w !! other) as [x|]; [|reflexivity].
      destruct (Datetime.fromisoformat (Session.expires_at x)); [|reflexivity].
      cbn [fst snd ticks clock write_sessions].
      destruct (Datetime.gtb (clock w (ticks w)) a); reflexivity.
  - rewrite (logout_user_unknown w sid Hl). cbn [snd].
    split; [apply validate_session_unknown; exact Hl|].
    split; reflexivity.
Qed.

(** X5.  A successful [authenticate_user] rewrites users.json with one
    field changed: the last login of that user, set to the current time.
    Password hash, role, display name, client identifier and creation
    time are kept, every other user's record is kept, and sessions.json
    is not written. *)
Theorem authenticate_changes_last_login_only
    (w : world) (u p : string) (rec : User.t) :
  fst (authenticate_user u p w) = Return (true, Some rec) ->
  let w' := snd (authenticate_user u p w) in
  exists old,
    users_of w !! u = Some old
    /\ rec = User.mk (User.password old) (User.role old) (User.full_name old)
                     (User.client_id old) (User.created_at old)
                     (Datetime.isoformat (current_time w))
    /\ users_of w' !! u = Some rec
    /\ (forall other, other <> u -> users_of w' !! other = users_of w !! other)
    /\ sessions_file w' = sessions_file w.
Proof.
  intros H. cbv zeta.
  destruct (users_of w !! u) as [x|] eqn:Hl.
  - destruct (String.eqb (User.password x) (hash_password p)) eqn:Hp.
    + apply String.eqb_eq in Hp.
      pose proof (authenticate_user_match w u p x Hl Hp) as E.
      cbv zeta in E. rewrite E in *. cbn [fst snd] in *.
      injection H as <-. exists x.
      rewrite users_of_write_users.
      repeat split; try reflexivity.
      * apply lookup_insert_eq.
      * intros other Hne. apply lookup_insert_ne. congruence.
    + apply String.eqb_neq in Hp.
      rewrite (authenticate_user_mismatch w u p x Hl Hp) in H. discriminate H.
  - rewrite (authenticate_user_unknown w u p Hl) in H. discriminate H.
Qed.

Lemma create_session_returned u w sid :
  fst (create_session u w) = Return sid ->
  exists E,
    Datetime.add_hours (clock w (S (ticks w))) 24 = Return E
    /\ sid = Uuid.str (Uuid.uuid4_int (urandom w (draws w)))
    /\ snd (create_session u w)
       = write_sessions
           (<[sid := Session.mk u (Datetime.isoformat (current_time w))
                                (Datetime.isoformat E)]> (sessions_of w))
           (tick (tick (draw w))).
Proof.
  pose proof (create_session_eq w u) as Eq. cbv zeta in Eq. rewrite Eq.
  destruct (Datetime.add_hours (clock w (S (ticks w))) 24) as [E|e];
    [|intros H; discriminate H].
  cbn [fst snd]. intros H. injection H as <-. exists E.
  repeat split; reflexivity.
Qed.

(** X6.  A successful registration adds one user and one session and
    disturbs nothing else: every other user's record is as before, so
    whoever could authenticate before still can, and every session under
    another token is as before. *)
Theorem register_keeps_other_accounts
    (title : string -> string) (w : world) (u p r msg sid : string) :
  fst (register_user title u p r w) = Return (true, msg, sid) ->
  let w1 := snd (register_user title u p r w) in
  (forall other, other <> u -> users_of w1 !! other = users_of w !! other)
  /\ (forall other q old,
        other <> u -> users_of w !! other = Some old ->
        User.password old = hash_password q ->
        exists rec, fst (authenticate_user other q w1) = Return (true, Some rec))
  /\ (exists s, sessions_of w1 !! sid = Some s /\ Session.username s = u)
  /\ (forall token, token <> sid ->
        sessions_of w1 !! token = sessions_of w !! token).
Proof.
  intros H. cbv zeta.
  pose proof (registered_user_stored title w u p r msg sid H) as Hst.
  apply register_user_returned_true in H.
  destruct H as (_ & _ & _ & _ & Hsid & Hw & _).
  assert (Hothers : forall other, other <> u ->
            users_of (snd (register_user title u p r w)) !! other
            = users_of w !! other).
  { intros other Hne. rewrite Hst. apply lookup_insert_ne. congruence. }
  split; [exact Hothers|]. split.
  { intros other q old Hne Hold Hq.
    rewrite <- (Hothers other Hne) in Hold.
    pose proof (authenticate_user_match _ other q old Hold Hq) as E.
    cbv zeta in E. rewrite E. eexists. reflexivity. }
  rewrite Hw.
  destruct (create_session_returned _ _ _ Hsid) as (E & _ & _ & ->).
  rewrite sessions_of_write_sessions. split.
  - eexists. split; [apply lookup_insert_eq | reflexivity].
  - intros token Hne. rewrite lookup_insert_ne by congruence. reflexivity.
Qed.

(** X7.  What [hash_password] returns is always 64 characters, each a
    digit or a letter a to f; so it differs from the password itself
    whenever the password is not 64 characters long or has a character
    outside that alphabet. *)
Theorem hash_password_shape (p : string) :
  String.length (hash_password p) = 64%nat
  /\ all_chars is_lower_hex (hash_password p) = true
  /\ (String.length p <> 64%nat \/ all_chars is_lower_hex p = false ->
      hash_password p <> p).
Proof.
  split; [apply hash_password_length|].
  split; [apply TextFacts.sha256_hexdigest_lower_hex|].
  intros [Hl | Hc].
  - apply hash_password_differs_by_length. exact Hl.
  - apply hash_password_differs_by_alphabet. exact Hc.
Qed.

(** X8.  [create_session] never touches users.json and does not look the
    username up.  When it returns, the sessions under other tokens are
    as before; when the expiry cannot be represented it raises
    [OverflowError] and sessions.json is not written. *)
Theorem create_session_keeps_other_sessions (w : world) (u : string) :
  let w1 := snd (create_session u w) in
  users_file w1 = users_file w
  /\ (forall sid, fst (create_session u w) = Return sid ->
        (exists s, sessions_of w1 !! sid = Some s /\ Session.username s = u)
        /\ forall token, token <> sid ->
             sessions_of w1 !! token = sessions_of w !! token)
  /\ (forall e, fst (create_session u w) = Raise e ->
        e = OverflowError /\ sessions_file w1 = sessions_file w).
Proof.
  cbv zeta. split; [apply create_session_users_file|]. split.
  - intros sid Hsid.
    destruct (create_session_returned _ _ _ Hsid) as (E & _ & _ & ->).
    rewrite sessions_of_write_sessions. split.
    + eexists. split; [apply lookup_insert_eq | reflexivity].
    + intros token Hne. rewrite lookup_insert_ne by congruence. reflexivity.
  - intros e.
    pose proof (create_session_eq w u) as Eq. cbv zeta in Eq. rewrite Eq.
    destruct (Datetime.add_hours (clock w (S (ticks w))) 24) as [E|x] eqn:HE;
      cbn [fst snd]; intros H; [discriminate H|].
    injection H as <-. split; [|reflexivity].
    destruct (clock w (S (ticks w))) as [y m dd hh mi ss us].
    unfold Datetime.add_hours in HE.
    revert HE.
    generalize (Datetime.mk y m dd ((hh + 24) mod 24) mi ss us).
    generalize (Z.to_nat ((hh + 24) / 24)).
    intros n. induction n as [|n IH]; intros d; cbn [Datetime.add_days].
    + intros H. discriminate H.
    + destruct (Datetime.next_day d) as [d'|e'] eqn:Hn.
      * apply IH.
      * intros H. injection H as <-.
        destruct d as [y' m' d' h' mi' s' us']. unfold Datetime.next_day in Hn.
        destruct (d' <? Datetime.days_in_month y' m'); [discriminate Hn|].
        destruct (m' <? 12); [discriminate Hn|].
        destruct (y' <? Datetime.MAXYEAR); [discriminate Hn|].
        injection Hn as <-. reflexivity.
Qed.

(** X9.  Once a name is registered, registering it again is refused with
    "Username already exists", whatever password and role are given, and
    changes nothing: the first password still authenticates. *)
Theorem reregistration_is_refused
    (title : string -> string) (w : world) (u p r msg sid p' r' : string) :
  fst (register_user title u p r w) = Return (true, msg, sid) ->
  let w1 := snd (register_user title u p r w) in
  register_user title u p' r' w1
  = (Return (false, "Username already exists", ""), w1)
  /\ exists rec, fst (authenticate_user u p w1) = Return (true, Some rec).
Proof.
  intros H. cbv zeta.
  pose proof (registered_user_stored title w u p r msg sid H) as Hst.
  assert (Hl : users_of (snd (register_user title u p r w)) !! u
               = Some (registered_record title w u p r))
    by (rewrite Hst; apply lookup_insert_eq).
  split.
  - apply register_user_duplicate. rewrite Hl. eauto.
  - pose proof (authenticate_user_match _ u p _ Hl eq_refl) as E.
    cbv zeta in E. rewrite E. eexists. reflexivity.
Qed.

(* ===================================================================== *)
(** ** The login page and the authentication check *)
(* ===================================================================== *)

Lemma page_eta p : mkPage (state p) (disk p) (shown p) = p.
Proof. destruct p; reflexivity. Qed.

Lemma state_eta s :
  St.mk (St.auth_manager s) (St.authenticated s) (St.session_id s)
        (St.current_user s) (St.last_session_id s) = s.
Proof. destruct s; reflexivity. Qed.

(** What [check_authentication] does, by the session state it finds. *)
Lemma check_authentication_eq p :
  Page.check_authentication p
  = let s := state p in
    let refused (w : world) :=
      mkPage (St.mk (St.auth_manager s) (Some false) None None
                    (St.last_session_id s)) w (shown p) in
    match St.authenticated s with
    | None =>
        (Value false,
         mkPage (St.mk (St.auth_manager s) (Some false) (St.session_id s)
                       (St.current_user s) (St.last_session_id s))
                (disk p) (shown p))
    | Some false => (Value false, p)
    | Some true =>
        match St.session_id s, St.auth_manager s with
        | Some sid, true =>
            match validate_session sid (disk p) with
            | (Return (true, _), w) => (Value true, mkPage s w (shown p))
            | (Return (false, _), w) => (Value false, refused w)
            | (Raise e, w) => (Failure (FromAuth e), mkPage s w (shown p))
            end
        | _, _ => (Value true, p)
        end
    end.
Proof.
  destruct p as [[am au sid cu ls] w out].
  cbv [Page.check_authentication ui_bind get_state put_state ui_ret invoke
       default negb id fst snd state disk shown St.authenticated
       St.session_id St.auth_manager St.current_user St.last_session_id].
  destruct au as [[|]|]; try reflexivity.
  destruct sid as [sid|]; [|reflexivity].
  destruct am; [|reflexivity].
  destruct (validate_session sid w) as [[[[|] name]|e] w']; reflexivity.
Qed.

(** X10.  With the flag set and a token that the store does not hold (it
    was logged out, evicted, or never issued), [check_authentication]
    returns False, sets the flag to False and drops the token and the user
    from the session state; the disk is not written. *)
Theorem check_authentication_rejects_stale_token (p : page) (sid : string) :
  St.authenticated (state p) = Some true ->
  St.session_id (state p) = Some sid ->
  St.auth_manager (state p) = true ->
  sessions_of (disk p) !! sid = None ->
  Page.check_authentication p
  = (Value false,
     mkPage (St.mk true (Some false) None None (St.last_session_id (state p)))
            (disk p) (shown p)).
Proof.
  intros Ha Hs Hm Hl. rewrite check_authentication_eq. cbv zeta.
  rewrite Ha, Hs, Hm, (validate_session_unknown _ _ Hl). reflexivity.
Qed.

Lemma check_authentication_by_expiry
    (p : page) (sid : string) (s : Session.t) (E : Datetime.datetime) :
  St.authenticated (state p) = Some true ->
  St.session_id (state p) = Some sid ->
  St.auth_manager (state p) = true ->
  sessions_of (disk p) !! sid = Some s ->
  Datetime.fromisoformat (Session.expires_at s) = Return E ->
  Datetime.valid (current_time (disk p)) ->
  (Datetime.timeline (current_time (disk p)) <= Datetime.timeline E ->
   Page.check_authentication p
   = (Value true, mkPage (state p) (tick (disk p)) (shown p)))
  /\ (Datetime.timeline E < Datetime.timeline (current_time (disk p)) ->
      Page.check_authentication p
      = (Value false,
         mkPage (St.mk true (Some false) None None
                       (St.last_session_id (state p)))
                (write_sessions (delete sid (sessions_of (disk p)))
                                (tick (disk p)))
                (shown p))).
Proof.
  intros Ha Hs Hm Hl HE Hnow.
  assert (HvE : Datetime.valid E)
    by (eapply DatetimeFacts.fromisoformat_valid; exact HE).
  pose proof (DatetimeFacts.gtb_timeline _ _ Hnow HvE) as Hg.
  split; intros Ht; rewrite check_authentication_eq; cbv zeta;
    rewrite Ha, Hs, Hm.
  - rewrite (validate_session_live _ _ _ _ Hl HE); [reflexivity|].
    rewrite Hg. apply Z.ltb_ge. exact Ht.
  - rewrite (validate_session_expired _ _ _ _ Hl HE); [reflexivity|].
    rewrite Hg. apply Z.ltb_lt. exact Ht.
Qed.

(** X11.  With the flag set and a token whose session is stored with
    expiry E, [check_authentication] follows the clock: up to and at E it
    returns True and keeps the session state; strictly after E it returns
    False, sets the flag to False, drops the token and the user from the
    session state, and the session is deleted from sessions.json. *)
Theorem check_authentication_follows_expiry
    (p : page) (sid : string) (s : Session.t) (E : Datetime.datetime) :
  St.authenticated (state p) = Some true ->
  St.session_id (state p) = Some sid ->
  St.auth_manager (state p) = true ->
  sessions_of (disk p) !! sid = Some s ->
  Datetime.fromisoformat (Session.expires_at s) = Return E ->
  Datetime.valid (current_time (disk p)) ->
  (Datetime.timeline (current_time (disk p)) <= Datetime.timeline E ->
   Page.check_authentication p
   = (Value true, mkPage (state p) (tick (disk p)) (shown p)))
  /\ (Datetime.timeline E < Datetime.timeline (current_time (disk p)) ->
      Page.check_authentication p
      = (Value false,
         mkPage (St.mk true (Some false) None None
                       (St.last_session_id (state p)))
                (write_sessions (delete sid (sessions_of (disk p)))
                                (tick (disk p)))
                (shown p))).
Proof.
  apply check_authentication_by_expiry.
Qed.

(** X12.  A refusal sticks: whenever [check_authentication] returns False,
    the flag is False afterwards, and calling it again returns False
    without reading the disk or the clock. *)
Theorem check_authentication_refusal_sticks (p p' : page) :
  Page.check_authentication p = (Value false, p') ->
  St.authenticated (state p') = Some false
  /\ Page.check_authentication p' = (Value false, p').
Proof.
  rewrite check_authentication_eq. cbv zeta.
  assert (Hstick : forall q, St.authenticated (state q) = Some false ->
            St.authenticated (state q) = Some false
            /\ Page.check_authentication q = (Value false, q)).
  { intros q Hq. split; [exact Hq|].
    rewrite check_authentication_eq. cbv zeta. rewrite Hq. reflexivity. }
  destruct (St.authenticated (state p)) as [[|]|] eqn:Ha.
  - destruct (St.session_id (state p)) as [sid|]; [|intros H; discriminate H].
    destruct (St.auth_manager (state p)); [|intros H; discriminate H].
    destruct (validate_session sid (disk p)) as [[[[|] name]|e] w'];
      intros H; try discriminate H.
    injection H as <-. apply Hstick. reflexivity.
  - intros H. injection H as <-. apply Hstick. exact Ha.
  - intros H. injection H as <-. apply Hstick. reflexivity.
Qed.

(** X13.  When the session state holds no token, or no manager, the flag
    alone decides: [check_authentication] returns it as it stands, False
    when it is absent, and then stores it as False; nothing else in the
    session state changes, and neither file nor clock is read. *)
Theorem check_authentication_without_token_trusts_flag (p : page) :
  St.session_id (state p) = None \/ St.auth_manager (state p) = false ->
  let flag := default false (St.authenticated (state p)) in
  Page.check_authentication p
  = (Value flag,
     mkPage (St.mk (St.auth_manager (state p)) (Some flag)
                   (St.session_id (state p)) (St.current_user (state p))
                   (St.last_session_id (state p)))
            (disk p) (shown p)).
Proof.
  intros Hno. cbv zeta. rewrite check_authentication_eq. cbv zeta.
  destruct p as [[am au sid cu ls] w out].
  cbn [state disk shown St.authenticated St.session_id St.auth_manager
       St.current_user St.last_session_id] in *.
  destruct au as [[|]|]; cbn [default]; try reflexivity.
  destruct Hno as [-> | ->]; [reflexivity|].
  destruct sid; reflexivity.
Qed.

Lemma show_login_page_eq title i p :
  Page.show_login_page title i p
  = (Page.tab1 i ~;; Page.tab2 title i) (with_manager p).
Proof.
  destruct p as [[am au sid cu ls] w out].
  unfold Page.show_login_page, with_manager.
  cbv [ui_bind get_state put_state ui_ret invoke state disk shown
       St.authenticated St.session_id St.auth_manager St.current_user
       St.last_session_id].
  destruct am; [reflexivity|].
  rewrite init_eq. reflexivity.
Qed.

Lemma with_manager_users p : users_of (disk (with_manager p)) = users_of (disk p).
Proof.
  unfold with_manager. destruct (St.auth_manager (state p)); [reflexivity|].
  cbn [disk]. rewrite init_eq. cbn [snd]. unfold users_of. cbn [users_file].
  destruct (users_file (disk p)); reflexivity.
Qed.

Lemma with_manager_sessions p :
  sessions_of (disk (with_manager p)) = sessions_of (disk p).
Proof.
  unfold with_manager. destruct (St.auth_manager (state p)); [reflexivity|].
  cbn [disk]. rewrite init_eq. cbn [snd]. unfold sessions_of. cbn [sessions_file].
  destruct (sessions_file (disk p)); reflexivity.
Qed.

Lemma with_manager_sources p :
  clock (disk (with_manager p)) = clock (disk p)
  /\ ticks (disk (with_manager p)) = ticks (disk p)
  /\ urandom (disk (with_manager p)) = urandom (disk p)
  /\ draws (disk (with_manager p)) = draws (disk p)
  /\ shown (with_manager p) = shown p
  /\ St.auth_manager (state (with_manager p)) = true
  /\ St.authenticated (state (with_manager p)) = St.authenticated (state p)
  /\ St.session_id (state (with_manager p)) = St.session_id (state p)
  /\ St.current_user (state (with_manager p)) = St.current_user (state p)
  /\ St.last_session_id (state (with_manager p)) = St.last_session_id (state p).
Proof.
  unfold with_manager. destruct (St.auth_manager (state p)) eqn:E.
  - repeat split; try reflexivity. exact E.
  - cbn [disk state shown]. rewrite init_eq. repeat split; reflexivity.
Qed.

Lemma tab2_idle title i q :
  Page.register_button i = false ->
  Page.tab2 title i q
  = (Value tt, mkPage (state q) (disk q) (shown q ++ [role_info (Page.reg_role i)])).
Proof.
  intros Hb. unfold Page.tab2, role_info. rewrite Hb.
  cbv [ui_bind show ui_ret state disk shown].
  destruct (String.eqb (Page.reg_role i) "investor"); reflexivity.
Qed.

Lemma truthy_true s : truthy s = true <-> s <> "".
Proof. unfold truthy. rewrite negb_true_iff. apply String.eqb_neq. Qed.

Lemma truthy_false s : truthy s = false <-> s = "".
Proof. unfold truthy. rewrite negb_false_iff. apply String.eqb_eq. Qed.

Lemma tab1_idle i q : Page.login_button i = false -> Page.tab1 i q = (Value tt, q).
Proof. intros Hb. unfold Page.tab1. rewrite Hb. reflexivity. Qed.

Lemma tab1_empty_field i q :
  Page.login_button i = true ->
  Page.username i = "" \/ Page.password i = "" ->
  Page.tab1 i q
  = (Value tt,
     mkPage (state q) (disk q)
            (shown q ++ [Warning "⚠️ Please enter both username and password"])).
Proof.
  intros Hb He. unfold Page.tab1. rewrite Hb.
  assert (Ht : truthy (Page.username i) && truthy (Page.password i) = false).
  { apply andb_false_iff. destruct He as [He | He]; [left | right];
      apply truthy_false; exact He. }
  rewrite Ht. reflexivity.
Qed.

Lemma tab1_refused i q :
  Page.login_button i = true ->
  Page.username i <> "" -> Page.password i <> "" ->
  fst (authenticate_user (Page.username i) (Page.password i) (disk q))
  = Return (false, None) ->
  snd (authenticate_user (Page.username i) (Page.password i) (disk q)) = disk q ->
  Page.tab1 i q
  = (Value tt,
     mkPage (state q) (disk q)
            (shown q ++ [Error "❌ Invalid username or password"])).
Proof.
  intros Hb Hu Hp Hf Hs. unfold Page.tab1. rewrite Hb.
  apply truthy_true in Hu, Hp. rewrite Hu, Hp. cbn [andb].
  cbv [ui_bind invoke show].
  destruct (authenticate_user (Page.username i) (Page.password i) (disk q))
    as [o w]. cbn [fst snd] in Hf, Hs. subst. reflexivity.
Qed.

Lemma add_hours_24_in_range d :
  Datetime.valid d -> Datetime.year d < Datetime.MAXYEAR ->
  exists E, Datetime.add_hours d 24 = Return E.
Proof.
  intros Hv Hy. rewrite DatetimeFacts.add_hours_24 by exact Hv.
  destruct d as [y m dd hh mi ss us]. cbn [Datetime.year] in Hy.
  unfold Datetime.next_day.
  destruct (dd <? Datetime.days_in_month y m); [eauto|].
  destruct (m <? 12); [eauto|].
  apply Z.ltb_lt in Hy. rewrite Hy. eauto.
Qed.

(** A successful login through the form, step by step. *)
Lemma tab1_accepted i q old E :
  Page.login_button i = true ->
  Page.username i <> "" -> Page.password i <> "" ->
  users_of (disk q) !! Page.username i = Some old ->
  User.password old = hash_password (Page.password i) ->
  Datetime.add_hours (clock (disk q) (S (S (ticks (disk q))))) 24 = Return E ->
  let w := disk q in
  let rec := User.with_last_login old (Datetime.isoformat (current_time w)) in
  let sid := Uuid.str (Uuid.uuid4_int (urandom w (draws w))) in
  Page.tab1 i q
  = (Rerun,
     mkPage (St.mk (St.auth_manager (state q)) (Some true) (Some sid)
                   (Some rec) (St.last_session_id (state q)))
            (write_sessions
               (<[sid := Session.mk (Page.username i)
                           (Datetime.isoformat (clock w (S (ticks w))))
                           (Datetime.isoformat E)]> (sessions_of w))
               (tick (tick (draw
                  (write_users (<[Page.username i := rec]> (users_of w))
                               (tick w))))))
            (shown q
             ++ [Success ("✅ Welcome back, " +:+ User.full_name old +:+ "!")]
             ++ [Success ("🆔 Your Client ID: **" +:+ User.client_id old
                          +:+ "**")])).
Proof.
  intros Hb Hu Hp Hl Hpw HE. cbv zeta. unfold Page.tab1. rewrite Hb.
  apply truthy_true in Hu, Hp. rewrite Hu, Hp. cbn [andb].
  pose proof (authenticate_user_match (disk q) _ _ old Hl Hpw) as Ea.
  cbv zeta in Ea.
  cbv [ui_bind invoke]. rewrite Ea. cbn [fst snd disk state shown].
  pose proof (create_session_eq
                (write_users
                   (<[Page.username i :=
                        User.with_last_login old
                          (Datetime.isoformat (current_time (disk q)))]>
                      (users_of (disk q))) (tick (disk q)))
                (Page.username i)) as Ec.
  cbv zeta in Ec. cbn [clock ticks write_users tick urandom draws] in Ec.
  rewrite HE in Ec. rewrite Ec.
  cbv [get_state put_state show rerun ui_ret state disk shown snd fst
       St.auth_manager St.last_session_id].
  cbn [User.full_name User.client_id User.with_last_login].
  rewrite <- app_assoc. reflexivity.
Qed.

Lemma users_of_session_written d m w :
  users_of (write_sessions d (tick (tick (draw (write_users m w))))) = m.
Proof. reflexivity. Qed.

Lemma login_run title i p old :
  Page.login_button i = true ->
  Page.username i <> "" -> Page.password i <> "" ->
  users_of (disk p) !! Page.username i = Some old ->
  User.password old = hash_password (Page.password i) ->
  clock_in_range (disk p) ->
  let w := disk (with_manager p) in
  let rec := User.with_last_login old (Datetime.isoformat (current_time (disk p))) in
  let sid := Uuid.str (Uuid.uuid4_int (urandom (disk p) (draws (disk p)))) in
  exists E,
    Datetime.add_hours (clock (disk p) (S (S (ticks (disk p))))) 24 = Return E
    /\ Datetime.valid E
    /\ Page.show_login_page title i p
       = (Rerun,
          mkPage (St.mk true (Some true) (Some sid) (Some rec)
                        (St.last_session_id (state p)))
                 (write_sessions
                    (<[sid := Session.mk (Page.username i)
                                (Datetime.isoformat
                                   (clock (disk p) (S (ticks (disk p)))))
                                (Datetime.isoformat E)]> (sessions_of (disk p)))
                    (tick (tick (draw
                       (write_users (<[Page.username i := rec]> (users_of (disk p)))
                                    (tick w))))))
                 (shown p
                  ++ [Success ("✅ Welcome back, " +:+ User.full_name old +:+ "!")]
                  ++ [Success ("🆔 Your Client ID: **" +:+ User.client_id old
                               +:+ "**")])).
Proof.
  intros Hb Hu Hp Hl Hpw Hclock. cbv zeta.
  destruct (Hclock (S (S (ticks (disk p))))) as [Hv Hy].
  destruct (add_hours_24_in_range _ Hv Hy) as [E HE].
  exists E. split; [exact HE|].
  split; [eapply DatetimeFacts.add_hours_24_valid; eassumption|].
  destruct (with_manager_sources p)
    as (Hc & Ht & Hr & Hd & Hsh & Hm & _ & _ & _ & Hls).
  rewrite show_login_page_eq. unfold ui_bind at 1.
  rewrite <- (with_manager_users p) in Hl.
  rewrite <- Hc, <- Ht in HE.
  pose proof (tab1_accepted i (with_manager p) old E Hb Hu Hp Hl Hpw HE) as Et.
  cbv zeta in Et. rewrite Et.
  unfold current_time.
  rewrite Hc, Ht, Hr, Hd, Hsh, Hm, Hls, with_manager_users, with_manager_sessions.
  reflexivity.
Qed.

(** X14.  Submitting the login form with the name and password of a stored
    account reruns the script with the session state holding the flag, a
    fresh token and the user's record with its last login refreshed; the
    record is written to users.json, a session for that name expiring 24
    hours after the clock reading is written to sessions.json, the two
    welcome notices are shown, and [get_current_client_id] is the client
    identifier of the account. *)
Theorem login_form_opens_a_session
    (title : string -> string) (i : Page.inputs) (p : page) (old : User.t) :
  Page.login_button i = true ->
  Page.username i <> "" -> Page.password i <> "" ->
  users_of (disk p) !! Page.username i = Some old ->
  User.password old = hash_password (Page.password i) ->
  clock_in_range (disk p) ->
  let p' := snd (Page.show_login_page title i p) in
  let rec := User.mk (User.password old) (User.role old) (User.full_name old)
                     (User.client_id old) (User.created_at old)
                     (Datetime.isoformat (current_time (disk p))) in
  let sid := Uuid.str (Uuid.uuid4_int (urandom (disk p) (draws (disk p)))) in
  fst (Page.show_login_page title i p) = Rerun
  /\ state p' = St.mk true (Some true) (Some sid) (Some rec)
                      (St.last_session_id (state p))
  /\ shown p'
     = shown p
       ++ [Success ("✅ Welcome back, " +:+ User.full_name old +:+ "!");
           Success ("🆔 Your Client ID: **" +:+ User.client_id old +:+ "**")]
  /\ users_of (disk p') !! Page.username i = Some rec
  /\ (exists s E,
        sessions_of (disk p') !! sid = Some s
        /\ Session.username s = Page.username i
        /\ Datetime.fromisoformat (Session.expires_at s) = Return E
        /\ Datetime.timeline E
           = Datetime.timeline (clock (disk p) (S (S (ticks (disk p)))))
             + 24 * 3600 * 1000000)
  /\ Page.get_current_client_id p' = (Value (Some (User.client_id old)), p').
Proof.
  intros Hb Hu Hp Hl Hpw Hclock. cbv zeta.
  destruct (login_run title i p old Hb Hu Hp Hl Hpw Hclock) as (E & HE & HvE & Run).
  cbv zeta in Run. rewrite Run. cbn [fst snd state disk shown].
  rewrite users_of_session_written, sessions_of_write_sessions.
  repeat split.
  - apply lookup_insert_eq.
  - eexists _, E. rewrite lookup_insert_eq.
    repeat split; cbn [Session.username Session.expires_at].
    + apply DatetimeFacts.fromisoformat_isoformat. exact HvE.
    + apply DatetimeFacts.add_hours_24_timeline; [apply Hclock | exact HE].
Qed.

(** X15.  After such a login, the next run's [check_authentication]
    depends on the clock alone: if what it reads is no later than 24 hours
    after the reading taken for the expiry, it returns True and keeps the
    session state; if it is later, it returns False, clears the flag, the
    token and the user, and the session is gone from the store. *)
Theorem login_then_check_authentication
    (title : string -> string) (i : Page.inputs) (p : page) (old : User.t) :
  Page.login_button i = true ->
  Page.username i <> "" -> Page.password i <> "" ->
  users_of (disk p) !! Page.username i = Some old ->
  User.password old = hash_password (Page.password i) ->
  clock_in_range (disk p) ->
  let p' := next_run (snd (Page.show_login_page title i p)) in
  let issued := clock (disk p) (S (S (ticks (disk p)))) in
  let now := clock (disk p) (S (S (S (ticks (disk p))))) in
  let sid := Uuid.str (Uuid.uuid4_int (urandom (disk p) (draws (disk p)))) in
  (Datetime.timeline now <= Datetime.timeline issued + 24 * 3600 * 1000000 ->
   fst (Page.check_authentication p') = Value true
   /\ state (snd (Page.check_authentication p')) = state p')
  /\ (Datetime.timeline issued + 24 * 3600 * 1000000 < Datetime.timeline now ->
      fst (Page.check_authentication p') = Value false
      /\ state (snd (Page.check_authentication p'))
         = St.mk true (Some false) None None (St.last_session_id (state p))
      /\ sessions_of (disk (snd (Page.check_authentication p'))) !! sid = None).
Proof.
  intros Hb Hu Hp Hl Hpw Hclock. cbv zeta.
  destruct (login_run title i p old Hb Hu Hp Hl Hpw Hclock) as (E & HE & HvE & Run).
  cbv zeta in Run. rewrite Run. cbn [snd]. unfold next_run. cbn [state disk shown].
  pose proof (DatetimeFacts.add_hours_24_timeline _ _ (proj1 (Hclock _)) HE) as HT.
  rewrite <- HT.
  destruct (with_manager_sources p) as (Hc & Ht & _).
  set (sid := Uuid.str (Uuid.uuid4_int (urandom (disk p) (draws (disk p))))).
  match goal with
  | |- context [Page.check_authentication ?q0] => set (q := q0)
  end.
  assert (Hnow : current_time (disk q) = clock (disk p) (S (S (S (ticks (disk p)))))).
  { unfold q, current_time. cbn [disk clock ticks write_sessions write_users tick draw].
    rewrite Hc, Ht. reflexivity. }
  assert (Hsess : sessions_of (disk q) !! sid
                  = Some (Session.mk (Page.username i)
                            (Datetime.isoformat (clock (disk p) (S (ticks (disk p)))))
                            (Datetime.isoformat E))).
  { unfold q. cbn [disk]. rewrite sessions_of_write_sessions.
    apply lookup_insert_eq. }
  assert (Hvnow : Datetime.valid (current_time (disk q)))
    by (rewrite Hnow; apply Hclock).
  destruct (check_authentication_by_expiry q sid _ E eq_refl eq_refl
              eq_refl Hsess (DatetimeFacts.fromisoformat_isoformat E HvE) Hvnow)
    as [Hlive Hdead].
  rewrite Hnow in Hlive, Hdead.
  split; intros Hcmp.
  - rewrite (Hlive Hcmp). split; reflexivity.
  - rewrite (Hdead Hcmp). cbn [fst snd state disk].
    split; [reflexivity|]. split; [reflexivity|].
    rewrite sessions_of_write_sessions. apply lookup_delete_eq.
Qed.

Lemma login_refused_run title i p :
  Page.login_button i = true -> Page.register_button i = false ->
  Page.username i <> "" -> Page.password i <> "" ->
  (users_of (disk p) !! Page.username i = None
   \/ exists rec, users_of (disk p) !! Page.username i = Some rec
                  /\ User.password rec <> hash_password (Page.password i)) ->
  Page.show_login_page title i p
  = (Value tt,
     mkPage (state (with_manager p)) (disk (with_manager p))
            (shown p ++ [Error "❌ Invalid username or password";
                         role_info (Page.reg_role i)])).
Proof.
  intros Hb Hr Hu Hp Hcase.
  rewrite <- (with_manager_users p) in Hcase.
  assert (Ha : authenticate_user (Page.username i) (Page.password i)
                 (disk (with_manager p))
               = (Return (false, None), disk (with_manager p))).
  { destruct Hcase as [Hn | (rec & Hl & Hne)].
    - apply authenticate_user_unknown. exact Hn.
    - eapply authenticate_user_mismatch; eassumption. }
  rewrite show_login_page_eq. unfold ui_bind at 1.
  rewrite (tab1_refused i (with_manager p) Hb Hu Hp); [|rewrite Ha; reflexivity..].
  rewrite (tab2_idle title i _ Hr). cbn [state disk shown].
  destruct (with_manager_sources p) as (_ & _ & _ & _ & -> & _).
  rewrite <- app_assoc. reflexivity.
Qed.

(** X16.  The login form answers an unknown name and a wrong password for
    a known name in the same way: the same notice, "Invalid username or
    password", the same session state and the same disk, on which nothing
    but the manager's missing files has been written. *)
Theorem login_form_failures_look_alike
    (title : string -> string) (i1 i2 : Page.inputs) (p : page) (rec : User.t) :
  Page.login_button i1 = true -> Page.login_button i2 = true ->
  Page.register_button i1 = false -> Page.register_button i2 = false ->
  Page.reg_role i1 = Page.reg_role i2 ->
  Page.username i1 <> "" -> Page.password i1 <> "" ->
  Page.username i2 <> "" -> Page.password i2 <> "" ->
  users_of (disk p) !! Page.username i1 = None ->
  users_of (disk p) !! Page.username i2 = Some rec ->
  User.password rec <> hash_password (Page.password i2) ->
  Page.show_login_page title i1 p = Page.show_login_page title i2 p
  /\ Page.show_login_page title i1 p
     = (Value tt,
        mkPage (state (with_manager p)) (disk (with_manager p))
               (shown p ++ [Error "❌ Invalid username or password";
                            role_info (Page.reg_role i1)]))
  /\ users_of (disk (with_manager p)) = users_of (disk p)
  /\ sessions_of (disk (with_manager p)) = sessions_of (disk p).
Proof.
  intros Hb1 Hb2 Hr1 Hr2 Hrole Hu1 Hp1 Hu2 Hp2 Hn Hl Hne.
  rewrite (login_refused_run title i1 p Hb1 Hr1 Hu1 Hp1 (or_introl Hn)).
  rewrite (login_refused_run title i2 p Hb2 Hr2 Hu2 Hp2
             (or_intror (ex_intro _ rec (conj Hl Hne)))).
  rewrite Hrole.
  repeat split; [apply with_manager_users | apply with_manager_sessions].
Qed.

(** X17.  With the username or the password left empty, the login form
    shows a warning and does not ask the manager: no file is read for the
    credentials, the clock is not read, and the session state is as it
    was but for the manager. *)
Theorem login_form_needs_both_fields
    (title : string -> string) (i : Page.inputs) (p : page) :
  Page.login_button i = true -> Page.register_button i = false ->
  Page.username i = "" \/ Page.password i = "" ->
  Page.show_login_page title i p
  = (Value tt,
     mkPage (state (with_manager p)) (disk (with_manager p))
            (shown p ++ [Warning "⚠️ Please enter both username and password";
                         role_info (Page.reg_role i)]))
  /\ ticks (disk (with_manager p)) = ticks (disk p)
  /\ users_of (disk (with_manager p)) = users_of (disk p)
  /\ sessions_of (disk (with_manager p)) = sessions_of (disk p).
Proof.
  intros Hb Hr He.
  rewrite show_login_page_eq. unfold ui_bind at 1.
  rewrite (tab1_empty_field i _ Hb He), (tab2_idle title i _ Hr).
  cbn [state disk shown].
  destruct (with_manager_sources p) as (_ & Ht & _ & _ & -> & _).
  rewrite <- app_assoc.
  repeat split; [exact Ht | apply with_manager_users | apply with_manager_sessions].
Qed.

Lemma tab2_refusal title i q (n : notice) :
  Page.register_button i = true ->
  (truthy (Page.reg_username i) && truthy (Page.reg_password i)
   && truthy (Page.reg_confirm_password i) = false
   /\ n = Warning "⚠️ Please fill in all fields")
  \/ (truthy (Page.reg_username i) && truthy (Page.reg_password i)
      && truthy (Page.reg_confirm_password i) = true
      /\ Page.reg_password i <> Page.reg_confirm_password i
      /\ n = Error "❌ Passwords do not match")
  \/ (truthy (Page.reg_username i) && truthy (Page.reg_password i)
      && truthy (Page.reg_confirm_password i) = true
      /\ Page.reg_password i = Page.reg_confirm_password i
      /\ py_len (Page.reg_password i) < 6
      /\ n = Error "❌ Password must be at least 6 characters long") ->
  Page.tab2 title i q
  = (Value tt,
     mkPage (state q) (disk q) (shown q ++ [role_info (Page.reg_role i); n])).
Proof.
  intros Hb Hcase. unfold Page.tab2, role_info. rewrite Hb.
  assert (Hshow : forall (m : notice) (k : UI unit) (x : page),
            k (mkPage (state x) (disk x) (shown x ++ [m]))
            = (Value tt, mkPage (state x) (disk x) ((shown x ++ [m]) ++ [n])) ->
            (show m ~;; k) x
            = (Value tt, mkPage (state x) (disk x) (shown x ++ [m; n]))).
  { intros m k x Hk. cbv [ui_bind show]. rewrite Hk, <- app_assoc. reflexivity. }
  destruct (String.eqb (Page.reg_role i) "investor");
    apply Hshow;
    (destruct Hcase as [[Ht ->] | [(Ht & Hne & ->) | (Ht & Heq & Hlen & ->)]];
     rewrite Ht; cbn [negb];
     [ reflexivity
     | apply String.eqb_neq in Hne; rewrite Hne; reflexivity
     | apply String.eqb_eq in Heq; rewrite Heq; cbn [negb];
       apply Z.ltb_lt in Hlen; rewrite Hlen; reflexivity ]).
Qed.

(** X18.  The registration form refuses, before asking the manager, a
    submission with an empty field ("Please fill in all fields"), one
    whose two passwords differ ("Passwords do not match"), and one whose
    password has fewer than 6 characters; in each case nothing is
    registered: the disk and the session state are as they were but for
    the manager. *)
Theorem register_form_refusals
    (title : string -> string) (i : Page.inputs) (p : page) :
  Page.register_button i = true -> Page.login_button i = false ->
  let refused (n : notice) :=
    Page.show_login_page title i p
    = (Value tt,
       mkPage (state (with_manager p)) (disk (with_manager p))
              (shown p ++ [role_info (Page.reg_role i); n])) in
  (Page.reg_username i = "" \/ Page.reg_password i = ""
   \/ Page.reg_confirm_password i = "" ->
   refused (Warning "⚠️ Please fill in all fields"))
  /\ (Page.reg_username i <> "" -> Page.reg_password i <> "" ->
      Page.reg_confirm_password i <> "" ->
      Page.reg_password i <> Page.reg_confirm_password i ->
      refused (Error "❌ Passwords do not match"))
  /\ (Page.reg_username i <> "" -> Page.reg_password i <> "" ->
      Page.reg_confirm_password i = Page.reg_password i ->
      py_len (Page.reg_password i) < 6 ->
      refused (Error "❌ Password must be at least 6 characters long"))
  /\ users_of (disk (with_manager p)) = users_of (disk p)
  /\ sessions_of (disk (with_manager p)) = sessions_of (disk p)
  /\ ticks (disk (with_manager p)) = ticks (disk p).
Proof.
  intros Hb Hl. cbv zeta.
  assert (Hrun : forall n,
            Page.tab2 title i (with_manager p)
            = (Value tt,
               mkPage (state (with_manager p)) (disk (with_manager p))
                      (shown (with_manager p) ++ [role_info (Page.reg_role i); n])) ->
            Page.show_login_page title i p
            = (Value tt,
               mkPage (state (with_manager p)) (disk (with_manager p))
                      (shown p ++ [role_info (Page.reg_role i); n]))).
  { intros n Ht. rewrite show_login_page_eq. unfold ui_bind at 1.
    rewrite (tab1_idle i _ Hl), Ht.
    destruct (with_manager_sources p) as (_ & _ & _ & _ & -> & _). reflexivity. }
  destruct (with_manager_sources p) as (_ & Ht & _).
  split; [|split; [|split; [|split; [|split]]]];
    [ | | | apply with_manager_users | apply with_manager_sessions | exact Ht].
  - intros He. apply Hrun. apply tab2_refusal; [exact Hb|]. left.
    split; [|reflexivity].
    rewrite !andb_false_iff, !truthy_false. tauto.
  - intros Hu Hp Hc Hne. apply Hrun. apply tab2_refusal; [exact Hb|].
    right. left. split; [|split; [exact Hne | reflexivity]].
    rewrite !andb_true_iff, !truthy_true. tauto.
  - intros Hu Hp Hc Hlen. apply Hrun. apply tab2_refusal; [exact Hb|].
    right. right. split; [|split; [congruence | split; [exact Hlen | reflexivity]]].
    rewrite !andb_true_iff, !truthy_true. rewrite Hc. tauto.
Qed.

Lemma registered_record_sources title w w' u pw r :
  clock w' = clock w -> ticks w' = ticks w ->
  registered_record title w' u pw r = registered_record title w u pw r.
Proof.
  intros Hc Ht. unfold registered_record, registered_client_id, current_time.
  rewrite Hc, Ht. reflexivity.
Qed.

Lemma registered_client_id_sources w w' u r :
  clock w' = clock w -> ticks w' = ticks w ->
  registered_client_id w' u r = registered_client_id w u r.
Proof.
  intros Hc Ht. unfold registered_client_id, current_time.
  rewrite Hc, Ht. reflexivity.
Qed.

(** A successful registration through the form, step by step. *)
Lemma tab2_accepted title i q E :
  Page.register_button i = true ->
  Page.reg_username i <> "" -> Page.reg_password i <> "" ->
  Page.reg_confirm_password i = Page.reg_password i ->
  6 <= py_len (Page.reg_password i) ->
  users_of (disk q) !! Page.reg_username i = None ->
  (Page.reg_role i = "investor" \/ Page.reg_role i = "investee") ->
  Datetime.add_hours (clock (disk q) (S (S (S (S (ticks (disk q))))))) 24
  = Return E ->
  let w := disk q in
  let u := Page.reg_username i in
  let stored := registered_record title w u (Page.reg_password i) (Page.reg_role i) in
  let rec := User.with_last_login stored
               (Datetime.isoformat (clock w (S (S (S (S (S (ticks w)))))))) in
  let sid := Uuid.str (Uuid.uuid4_int (urandom w (draws w))) in
  Page.tab2 title i q
  = (Rerun,
     mkPage (St.mk (St.auth_manager (state q)) (Some true) (Some sid)
                   (Some rec) (St.last_session_id (state q)))
            (write_users (<[u := rec]> (<[u := stored]> (users_of w)))
               (tick (write_sessions
                  (<[sid := Session.mk u
                              (Datetime.isoformat (clock w (S (S (S (ticks w))))))
                              (Datetime.isoformat E)]> (sessions_of w))
                  (tick (tick (draw
                     (registered_world title w u (Page.reg_password i)
                                       (Page.reg_role i))))))))
            (shown q
             ++ [role_info (Page.reg_role i);
                 Success ("✅ " +:+ "User registered successfully! Client ID: "
                          +:+ registered_client_id w u (Page.reg_role i));
                 Success "🎉 Welcome! You're now logged in!"])).
Proof.
  intros Hb Hu Hp Hc Hlen Hn Hr HE. cbv zeta.
  pose proof (register_user_accepted title (disk q) _ _ _ Hn Hu Hp Hr) as Er.
  pose proof (create_session_eq
                (registered_world title (disk q) (Page.reg_username i)
                   (Page.reg_password i) (Page.reg_role i))
                (Page.reg_username i)) as Ec.
  cbv zeta in Ec.
  cbn [clock ticks write_users tick urandom draws registered_world] in Ec.
  rewrite HE in Ec. rewrite Ec in Er. clear Ec.
  unfold Page.tab2. rewrite Hb.
  assert (Ht : truthy (Page.reg_username i) && truthy (Page.reg_password i)
               && truthy (Page.reg_confirm_password i) = true).
  { rewrite Hc, !andb_true_iff, !truthy_true. tauto. }
  rewrite Ht, Hc, String.eqb_refl. cbn [negb].
  assert (Hl6 : (py_len (Page.reg_password i) <? 6) = false)
    by (apply Z.ltb_ge; exact Hlen).
  rewrite Hl6.
  match type of Er with
  | _ = (Return (_, _, ?s), ?w4) =>
      assert (Hsid : truthy s = true)
        by (apply truthy_true, TextFacts.uuid_str_nonempty);
      assert (Hstored : users_of w4 !! Page.reg_username i
                        = Some (registered_record title (disk q)
                                  (Page.reg_username i) (Page.reg_password i)
                                  (Page.reg_role i)))
        by (apply lookup_insert_eq);
      pose proof (authenticate_user_match w4 _ (Page.reg_password i) _
                    Hstored eq_refl) as Ea
  end.
  cbv zeta in Ea.
  cbv [ui_bind invoke show]. cbn [state disk shown].
  unfold role_info.
  destruct (String.eqb (Page.reg_role i) "investor");
    cbn [state disk shown]; rewrite Er; cbn [state disk shown fst snd];
    rewrite Hsid; cbn [state disk shown]; rewrite Ea;
    cbv [get_state put_state rerun ui_ret state disk shown fst snd];
    rewrite <- !app_assoc; reflexivity.
Qed.

(** X19.  Submitting the registration form with a new name, a password of
    at least 6 characters typed twice and one of the two roles registers
    the account and logs it in at once: the script reruns with the flag
    set, the token of the session that registration opened, and the stored
    record with its last login refreshed; the notices show the client
    identifier; no other account is touched. *)
Theorem register_form_logs_in
    (title : string -> string) (i : Page.inputs) (p : page) :
  Page.register_button i = true -> Page.login_button i = false ->
  Page.reg_username i <> "" -> Page.reg_password i <> "" ->
  Page.reg_confirm_password i = Page.reg_password i ->
  6 <= py_len (Page.reg_password i) ->
  users_of (disk p) !! Page.reg_username i = None ->
  (Page.reg_role i = "investor" \/ Page.reg_role i = "investee") ->
  clock_in_range (disk p) ->
  let p' := snd (Page.show_login_page title i p) in
  let w := disk p in
  let u := Page.reg_username i in
  let stored := registered_record title w u (Page.reg_password i) (Page.reg_role i) in
  let rec := User.with_last_login stored
               (Datetime.isoformat (clock w (S (S (S (S (S (ticks w)))))))) in
  let sid := Uuid.str (Uuid.uuid4_int (urandom w (draws w))) in
  fst (Page.show_login_page title i p) = Rerun
  /\ state p' = St.mk true (Some true) (Some sid) (Some rec)
                      (St.last_session_id (state p))
  /\ shown p'
     = shown p
       ++ [role_info (Page.reg_role i);
           Success ("✅ " +:+ "User registered successfully! Client ID: "
                    +:+ User.client_id stored);
           Success "🎉 Welcome! You're now logged in!"]
  /\ users_of (disk p') !! u = Some rec
  /\ User.role rec = Page.reg_role i
  /\ User.password rec = hash_password (Page.reg_password i)
  /\ (exists s, sessions_of (disk p') !! sid = Some s /\ Session.username s = u)
  /\ (forall other, other <> u ->
        users_of (disk p') !! other = users_of (disk p) !! other).
Proof.
  intros Hb Hl Hu Hp Hc Hlen Hn Hr Hclock. cbv zeta.
  destruct (with_manager_sources p)
    as (Hck & Ht & Hur & Hd & Hsh & Hm & _ & _ & _ & Hls).
  destruct (Hclock (S (S (S (S (ticks (disk p))))))) as [Hv Hy].
  destruct (add_hours_24_in_range _ Hv Hy) as [E HE].
  rewrite <- Hck, <- Ht in HE.
  rewrite <- (with_manager_users p) in Hn.
  pose proof (tab2_accepted title i (with_manager p) E Hb Hu Hp Hc Hlen Hn Hr HE)
    as Run.
  cbv zeta in Run.
  match type of Run with
  | _ = ?res => assert (Hrun : Page.show_login_page title i p = res)
  end.
  { rewrite show_login_page_eq. unfold ui_bind at 1.
    rewrite (tab1_idle i _ Hl). exact Run. }
  rewrite Hrun. clear Run Hrun.
  rewrite (registered_record_sources title (disk p) (disk (with_manager p))
             _ _ _ Hck Ht).
  rewrite (registered_client_id_sources (disk p) (disk (with_manager p))
             _ _ Hck Ht).
  rewrite Hck, Ht, Hur, Hd, Hsh, Hm, Hls.
  cbn [fst snd state disk shown].
  rewrite users_of_write_users.
  unfold sessions_of at 1. cbn [sessions_file write_users tick write_sessions load_or_empty].
  rewrite with_manager_users.
  repeat split.
  - apply lookup_insert_eq.
  - eexists. split; [apply lookup_insert_eq | reflexivity].
  - intros other Hne. rewrite !lookup_insert_ne by congruence. reflexivity.
Qed.

Lemma page_logout_eq p :
  Page.logout_user p
  = (Rerun,
     mkPage (St.mk (St.auth_manager (state p)) None None None None)
            (match St.session_id (state p), St.auth_manager (state p) with
             | Some sid, true => snd (logout_user sid (disk p))
             | _, _ => disk p
             end)
            (shown p)).
Proof.
  destruct p as [[am au sid cu ls] w out].
  cbv [Page.logout_user ui_bind get_state put_state ui_ret invoke rerun
       state disk shown St.session_id St.auth_manager].
  destruct sid as [sid|]; [|reflexivity].
  destruct am; [|reflexivity].
  destruct (sessions_of w !! sid) as [s|] eqn:Hl.
  - rewrite (logout_user_known w sid s Hl). reflexivity.
  - rewrite (logout_user_unknown w sid Hl). reflexivity.
Qed.

(** X20.  Logging out from the page always ends in a rerun with the flag,
    the token, the user and the last analysis id removed from the session
    state.  If a token and the manager were there, that token's session
    is deleted from sessions.json and no other; otherwise the disk is not
    touched.  users.json is never written, and on the next run
    [check_authentication] returns False. *)
Theorem page_logout_ends_the_session (p : page) :
  let p' := snd (Page.logout_user p) in
  fst (Page.logout_user p) = Rerun
  /\ state p' = St.mk (St.auth_manager (state p)) None None None None
  /\ users_file (disk p') = users_file (disk p)
  /\ (forall sid,
        St.session_id (state p) = Some sid ->
        St.auth_manager (state p) = true ->
        sessions_of (disk p') !! sid = None
        /\ forall other, other <> sid ->
             sessions_of (disk p') !! other = sessions_of (disk p) !! other)
  /\ (St.session_id (state p) = None \/ St.auth_manager (state p) = false ->
      disk p' = disk p)
  /\ fst (Page.check_authentication (next_run p')) = Value false
  /\ disk (snd (Page.check_authentication (next_run p'))) = disk p'.
Proof.
  cbv zeta. rewrite page_logout_eq. cbn [fst snd state disk].
  split; [reflexivity|]. split; [reflexivity|].
  split; [|split; [|split]].
  - destruct (St.session_id (state p)) as [sid|]; [|reflexivity].
    destruct (St.auth_manager (state p)); [|reflexivity].
    apply logout_user_users_file.
  - intros sid -> ->.
    destruct (sessions_of (disk p) !! sid) as [s|] eqn:Hl.
    + rewrite (logout_user_known _ sid s Hl). cbn [snd].
      rewrite sessions_of_write_sessions. split; [apply lookup_delete_eq|].
      intros other Hne. apply lookup_delete_ne. congruence.
    + rewrite (logout_user_unknown _ sid Hl). cbn [snd].
      split; [exact Hl | reflexivity].
  - intros [-> | ->]; [reflexivity|].
    destruct (St.session_id (state p)); reflexivity.
  - rewrite check_authentication_eq. cbv zeta. unfold next_run.
    cbn [state disk shown St.authenticated]. split; reflexivity.
Qed.

(** X21.  After a logout the next run of [main] shows the login page and
    never hands over to the dashboard, whatever the dashboard is. *)
Theorem main_after_logout_shows_login_page
    (title : string -> string) (excel_main : UI unit)
    (i : Page.inputs) (p : page) :
  let p' := next_run (snd (Page.logout_user p)) in
  Page.main title excel_main i p'
  = Page.show_login_page title i
      (mkPage (St.mk (St.auth_manager (state p)) (Some false) None None None)
              (disk p') []).
Proof.
  cbv zeta. rewrite page_logout_eq. unfold next_run, Page.main.
  cbn [snd state disk shown]. unfold ui_bind at 1.
  rewrite check_authentication_eq. cbv zeta.
  cbn [state disk shown St.authenticated St.auth_manager St.session_id
       St.current_user St.last_session_id negb].
  reflexivity.
Qed.

(* ===================================================================== *)
(** ** Report keys and client identifiers *)
(* ===================================================================== *)

Module S3Facts.
Import S3.

Lemma has_char_append c a b : has_char c (a +:+ b) = has_char c a || has_char c b.
Proof.
  induction a as [|x a IH]; [reflexivity|].
  rewrite append_cons. simpl. rewrite IH, orb_assoc. reflexivity.
Qed.

Lemma has_char_outside P c s :
  P c = false -> all_chars P s = true -> has_char c s = false.
Proof.
  intros Hc. induction s as [|x s IH]; [reflexivity|].
  simpl. intros H. apply andb_true_iff in H. destruct H as [Hx Hs].
  rewrite (IH Hs), orb_false_r.
  destruct (Ascii.eqb x c) eqn:E; [|reflexivity].
  apply Ascii.eqb_eq in E. congruence.
Qed.

Lemma split_nonempty c s : split c s <> [].
Proof.
  destruct s as [|x s]; simpl; [discriminate|].
  destruct (Ascii.eqb x c); [discriminate|].
  destruct (split c s); discriminate.
Qed.

Lemma split_no_sep c s : has_char c s = false -> split c s = [s].
Proof.
  induction s as [|x s IH]; [reflexivity|].
  simpl. intros H. apply orb_false_iff in H. destruct H as [Hx Hs].
  rewrite Hx, (IH Hs). reflexivity.
Qed.

Lemma split_at_first c a b :
  has_char c a = false -> split c (a +:+ String c b) = a :: split c b.
Proof.
  induction a as [|x a IH]; intros H.
  - rewrite append_nil. simpl. rewrite Ascii.eqb_refl. reflexivity.
  - simpl in H. apply orb_false_iff in H. destruct H as [Hx Ha].
    rewrite append_cons. simpl. rewrite Hx, (IH Ha). reflexivity.
Qed.

(** A string that holds [c] is cut at its first [c]. *)
Lemma first_cut c s :
  has_char c s = true ->
  exists a b, s = a +:+ String c b /\ has_char c a = false.
Proof.
  induction s as [|x s IH]; [discriminate|].
  simpl. destruct (Ascii.eqb x c) eqn:E.
  - intros _. apply Ascii.eqb_eq in E. subst. exists "", s. split; reflexivity.
  - intros H. destruct (IH H) as (a & b & -> & Ha).
    exists (String x a), b. split; [reflexivity|]. simpl. rewrite E, Ha. reflexivity.
Qed.

Lemma split_parts_no_sep c s : Forall (fun x => has_char c x = false) (split c s).
Proof.
  induction s as [|x s IH]; [repeat constructor|].
  simpl. destruct (Ascii.eqb x c) eqn:E.
  - constructor; [reflexivity | exact IH].
  - destruct (split c s) as [|h t] eqn:Hs.
    + constructor; [|constructor]. simpl. rewrite E. reflexivity.
    + inversion IH; subst. constructor; [|assumption].
      simpl. rewrite E. assumption.
Qed.

Lemma remove_from_no_char c pat k s :
  has_char c s = false -> has_char c (remove_from pat k s) = false.
Proof.
  revert k. induction s as [|x s IH]; intros k H; [reflexivity|].
  simpl in H. apply orb_false_iff in H. destruct H as [Hx Hs].
  cbn [remove_from]. destruct k as [|k]; [|apply IH; exact Hs].
  destruct (String.prefix pat (String x s)); [apply IH; exact Hs|].
  simpl. rewrite Hx. apply IH. exact Hs.
Qed.

Lemma extract_before_slash (a b : string) :
  has_char "/" a = false ->
  extract_client_id_from_key (a +:+ String "/" b) = a.
Proof.
  intros H. unfold extract_client_id_from_key.
  rewrite has_char_append.
  cbn [has_char]. rewrite Ascii.eqb_refl, orb_true_r.
  rewrite (split_at_first _ _ _ H). reflexivity.
Qed.

(** X22.  A key with a folder part is filed under the folder: whatever
    follows the first slash, the text before it is returned unchanged. *)
Theorem extract_client_id_of_folder_key (cid rest : string) :
  has_char "/" cid = false ->
  extract_client_id_from_key (cid +:+ "/" +:+ rest) = cid.
Proof.
  intros H. rewrite append_cons, append_nil. apply extract_before_slash. exact H.
Qed.

(** What a key without a slash is filed under has at most one
    underscore. *)
Lemma flat_key_parts key :
  has_char "/" key = false ->
  (length (split "_" (extract_client_id_from_key key)) <= 2)%nat.
Proof.
  intros Hs. unfold extract_client_id_from_key. rewrite Hs.
  destruct (has_char "_" key) eqn:Hu.
  - pose proof (split_parts_no_sep "_" key) as Hp.
    destruct (split "_" key) as [|a [|b t]] eqn:Es.
    + exfalso. eapply split_nonempty. exact Es.
    + exfalso. destruct (first_cut _ _ Hu) as (x & y & -> & Hx).
      rewrite (split_at_first _ _ _ Hx) in Es.
      destruct (split "_" y) eqn:Ey; [eapply split_nonempty; exact Ey|].
      discriminate Es.
    + change (firstn 2 (a :: b :: t)) with [a; b].
      cbn [length Nat.leb join].
      inversion Hp as [|? ? Ha Hp']; subst. inversion Hp' as [|? ? Hb _]; subst.
      rewrite append_cons, append_nil.
      rewrite (split_at_first _ _ _ Ha), (split_no_sep _ _ Hb). simpl. lia.
  - rewrite split_no_sep; [simpl; lia|].
    apply remove_from_no_char. exact Hu.
Qed.

Lemma client_id_parts w u r :
  let P := if String.eqb r "investor" then "INV" else "IVE" in
  let H := upper (substring 0 6 (MD5.hexdigest u)) in
  let D := Datetime.strftime_Ymd (current_time w) in
  registered_client_id w u r = P +:+ "_" +:+ H +:+ "_" +:+ D
  /\ has_char "/" P = false /\ has_char "_" P = false
  /\ has_char "/" H = false /\ has_char "_" H = false
  /\ has_char "/" D = false /\ has_char "_" D = false.
Proof.
  cbv zeta. split; [reflexivity|].
  assert (HD : all_chars is_digit (Datetime.strftime_Ymd (current_time w)) = true).
  { unfold Datetime.strftime_Ymd.
    rewrite !all_chars_append, !DatetimeFacts.zpad_digits. reflexivity. }
  destruct (TextFacts.username_hash_shape u) as [_ HH].
  repeat split;
    try (destruct (String.eqb r "investor"); reflexivity);
    try (apply (has_char_outside is_upper_hex); [reflexivity | exact HH]);
    apply (has_char_outside is_digit); [reflexivity | exact HD | reflexivity | exact HD].
Qed.

Lemma client_id_no_slash w u r : has_char "/" (registered_client_id w u r) = false.
Proof.
  destruct (client_id_parts w u r) as (-> & Hp & _ & Hh & _ & Hd & _).
  rewrite !has_char_append, Hp, Hh, Hd. reflexivity.
Qed.

Lemma client_id_three_parts w u r :
  length (split "_" (registered_client_id w u r)) = 3%nat.
Proof.
  destruct (client_id_parts w u r) as (-> & _ & Hp & _ & Hh & _ & Hd).
  rewrite !(append_cons "_"), !append_nil.
  rewrite (split_at_first _ _ _ Hp), (split_at_first _ _ _ Hh),
    (split_no_sep _ _ Hd). reflexivity.
Qed.

(** X23.  A key that starts with a generated client identifier and goes on
    with an underscore, without any slash, is filed under the role prefix
    and the hash only: the date is cut off, so the key is not filed under
    the client identifier. *)
Theorem flat_key_is_filed_without_the_date (w : world) (u r rest : string) :
  has_char "/" rest = false ->
  let cid := registered_client_id w u r in
  extract_client_id_from_key (cid +:+ "_" +:+ rest)
  = (if String.eqb r "investor" then "INV" else "IVE") +:+ "_"
    +:+ upper (substring 0 6 (MD5.hexdigest u))
  /\ extract_client_id_from_key (cid +:+ "_" +:+ rest) <> cid.
Proof.
  intros Hrest. cbv zeta.
  assert (E : extract_client_id_from_key
                (registered_client_id w u r +:+ "_" +:+ rest)
              = (if String.eqb r "investor" then "INV" else "IVE") +:+ "_"
                +:+ upper (substring 0 6 (MD5.hexdigest u))).
  { pose proof (client_id_no_slash w u r) as Hns.
    destruct (client_id_parts w u r) as (Eq & _ & Hp & _ & Hh & _ & Hd).
    unfold extract_client_id_from_key.
    rewrite !has_char_append, Hns, Hrest. cbn [has_char orb Ascii.eqb Bool.eqb].
    rewrite orb_true_r. rewrite Eq, !append_assoc.
    rewrite !(append_cons "_"), !append_nil.
    rewrite (split_at_first _ _ _ Hp), (split_at_first _ _ _ Hh).
    destruct (split "_" (Datetime.strftime_Ymd (current_time w) +:+ String "_" rest));
      reflexivity. }
  split; [exact E|].
  rewrite E. intros H. apply (f_equal (fun s => length (split "_" s))) in H.
  rewrite client_id_three_parts in H.
  destruct (client_id_parts w u r) as (_ & _ & Hp & _ & Hh & _).
  rewrite (append_cons "_"), append_nil in H.
  rewrite (split_at_first _ _ _ Hp), (split_no_sep _ _ Hh) in H.
  discriminate H.
Qed.

(** X25.  The keys filed under a generated client identifier are exactly
    the keys inside the folder of that name: the identifier, a slash, and
    anything. *)
Theorem client_files_are_the_folder (w : world) (u r key : string) :
  let cid := registered_client_id w u r in
  extract_client_id_from_key key = cid
  <-> exists rest, key = cid +:+ "/" +:+ rest.
Proof.
  cbv zeta. split.
  - intros H. destruct (has_char "/" key) eqn:Hs.
    + destruct (first_cut _ _ Hs) as (a & b & -> & Ha).
      rewrite (extract_before_slash _ _ Ha) in H. subst a.
      exists b. rewrite append_cons, append_nil. reflexivity.
    + pose proof (flat_key_parts key Hs) as Hlen.
      rewrite H, client_id_three_parts in Hlen. lia.
  - intros [rest ->]. rewrite append_cons, append_nil.
    apply extract_before_slash, client_id_no_slash.
Qed.

Lemma add_object_lookup g obj cid :
  add_object g obj !! cid
  = if String.eqb (extract_client_id_from_key obj) cid
    then Some (default [] (g !! cid) ++ [obj])
    else g !! cid.
Proof.
  unfold add_object, contains.
  destruct (String.eqb (extract_client_id_from_key obj) cid) eqn:E.
  - apply String.eqb_eq in E. subst cid.
    rewrite lookup_insert_eq.
    destruct (g !! extract_client_id_from_key obj) as [l|] eqn:Hl.
    + rewrite Hl. reflexivity.
    + rewrite lookup_insert_eq. reflexivity.
  - apply String.eqb_neq in E.
    rewrite lookup_insert_ne by exact E.
    destruct (g !! extract_client_id_from_key obj);
      [reflexivity | rewrite lookup_insert_ne by exact E; reflexivity].
Qed.

Lemma fold_add_object_lookup objs : forall g cid,
  fold_left add_object objs g !! cid
  = match filter (fun o => extract_client_id_from_key o = cid) objs with
    | [] => g !! cid
    | l => Some (default [] (g !! cid) ++ l)
    end.
Proof.
  induction objs as [|obj objs IH]; intros g cid; [reflexivity|].
  cbn [fold_left]. rewrite IH, add_object_lookup.
  rewrite filter_cons.
  destruct (decide (extract_client_id_from_key obj = cid)) as [E|E].
  - apply String.eqb_eq in E. rewrite E. cbn [default].
    destruct (filter _ objs); [reflexivity|].
    unfold id. rewrite <- app_assoc. reflexivity.
  - apply String.eqb_neq in E. rewrite E. reflexivity.
Qed.

(** X24.  The grouping loop files every key under the client extracted
    from it and nowhere else: the list kept for a client is the keys of
    that client in the order they were listed, and a client without keys
    has no entry. *)
Theorem group_by_client_files_each_key (s3_objects : list string) :
  (forall cid,
     group_by_client s3_objects !! cid
     = match filter (fun o => extract_client_id_from_key o = cid) s3_objects with
       | [] => None
       | l => Some l
       end)
  /\ (forall obj, In obj s3_objects ->
        exists l, group_by_client s3_objects
                  !! extract_client_id_from_key obj = Some l
                  /\ In obj l).
Proof.
  assert (H : forall cid,
     group_by_client s3_objects !! cid
     = match filter (fun o => extract_client_id_from_key o = cid) s3_objects with
       | [] => None
       | l => Some l
       end).
  { intros cid. unfold group_by_client. rewrite fold_add_object_lookup.
    rewrite lookup_empty. reflexivity. }
  split; [exact H|].
  intros obj Hin. rewrite H.
  assert (Hf : In obj (filter (fun o => extract_client_id_from_key o
                                        = extract_client_id_from_key obj)
                              s3_objects)).
  { apply list_elem_of_In, list_elem_of_filter. split; [reflexivity|].
    apply list_elem_of_In. exact Hin. }
  destruct (filter _ s3_objects) as [|x l]; [destruct Hf|].
  eexists. split; [reflexivity | exact Hf].
Qed.

End S3Facts.

(* ===================================================================== *)
(** ** The further properties at work on concrete sessions *)
(* ===================================================================== *)

Lemma scene_clock_in_range : clock_in_range Scene.installed.
Proof.
  intros n. split; [apply demo_readings_valid|].
  cbn. unfold Datetime.MAXYEAR. lia.
Qed.

Example scene_login_state :
  state Scene.logged_in
  = St.mk true (Some true) (Some Scene.token)
          (Some (User.with_last_login Scene.alice "2024-01-15T10:30:00")) None.
Proof. vm_compute. reflexivity. Qed.

Example scene_short_password :
  shown (snd (Page.show_login_page Demo.title
                (Scene.signup "bob" "abc" "abc" "investee") Scene.arrival))
  = [role_info "investee";
     Error "❌ Password must be at least 6 characters long"].
Proof. vm_compute. reflexivity. Qed.

Example extract_examples :
  map S3.extract_client_id_from_key
      ["client_123/report.json"; "client_123_report.json"; "report.json";
       "x.jso.jsonn"; "INV_6384E2_20240115_report.json"]
  = ["client_123"; "client_123"; "report"; "x.json"; "INV_6384E2"].
Proof. vm_compute. reflexivity. Qed.

Lemma get_user_info_after_register_witness :
  get_user_info "alice" Demo.registered
  = (Return (Some (registered_record Demo.title Demo.fresh "alice" "secret1"
                                     "investor")),
     Demo.registered).
Proof.
  refine (proj1 (get_user_info_after_register Demo.title Demo.fresh "alice"
                   "secret1" "investor"
                   "User registered successfully! Client ID: INV_6384E2_20240115"
                   Demo.token _)).
  vm_compute. reflexivity.
Defined.

Lemma authenticate_changes_last_login_only_witness :
  exists old,
    users_of Scene.installed !! "alice" = Some old
    /\ User.with_last_login Scene.alice "2024-01-15T10:30:00"
       = User.mk (User.password old) (User.role old) (User.full_name old)
                 (User.client_id old) (User.created_at old)
                 (Datetime.isoformat (current_time Scene.installed))
    /\ users_of (snd (authenticate_user "alice" "secret1" Scene.installed))
       !! "alice"
       = Some (User.with_last_login Scene.alice "2024-01-15T10:30:00")
    /\ (forall other, other <> "alice" ->
          users_of (snd (authenticate_user "alice" "secret1" Scene.installed))
          !! other = users_of Scene.installed !! other)
    /\ sessions_file (snd (authenticate_user "alice" "secret1" Scene.installed))
       = sessions_file Scene.installed.
Proof.
  apply (authenticate_changes_last_login_only Scene.installed "alice" "secret1"
           (User.with_last_login Scene.alice "2024-01-15T10:30:00")).
  vm_compute. reflexivity.
Defined.

Lemma register_keeps_other_accounts_witness :
  exists s,
    sessions_of (snd (register_user Demo.title "bob" "hunter22" "investee"
                                    Scene.installed)) !! Scene.token = Some s
    /\ Session.username s = "bob".
Proof.
  refine (proj1 (proj2 (proj2 (register_keeps_other_accounts Demo.title
                   Scene.installed "bob" "hunter22" "investee"
                   "User registered successfully! Client ID: IVE_9F9D51_20240115"
                   Scene.token _)))).
  vm_compute. reflexivity.
Defined.

Lemma reregistration_is_refused_witness :
  register_user Demo.title "alice" "other" "investee" Demo.registered
  = (Return (false, "Username already exists", ""), Demo.registered).
Proof.
  refine (proj1 (reregistration_is_refused Demo.title Demo.fresh "alice"
                   "secret1" "investor"
                   "User registered successfully! Client ID: INV_6384E2_20240115"
                   Demo.token "other" "investee" _)).
  vm_compute. reflexivity.
Defined.

Lemma check_authentication_rejects_stale_token_witness :
  Page.check_authentication
    (mkPage (St.mk true (Some true) (Some "gone") (Some Scene.alice) None)
            Scene.installed [])
  = (Value false,
     mkPage (St.mk true (Some false) None None None) Scene.installed []).
Proof.
  apply (check_authentication_rejects_stale_token
           (mkPage (St.mk true (Some true) (Some "gone") (Some Scene.alice) None)
                   Scene.installed []) "gone");
    reflexivity.
Defined.

Lemma check_authentication_follows_expiry_witness :
  Page.check_authentication Scene.logged_in
  = (Value true,
     mkPage (state Scene.logged_in) (tick (disk Scene.logged_in))
            (shown Scene.logged_in)).
Proof.
  refine (proj1 (check_authentication_follows_expiry Scene.logged_in Scene.token
                   (Session.mk "alice" "2024-01-15T10:30:01" "2024-01-16T10:30:02")
                   (Datetime.mk 2024 1 16 10 30 2 0) _ _ _ _ _ _) _).
  - vm_compute. reflexivity.
  - vm_compute. reflexivity.
  - vm_compute. reflexivity.
  - vm_compute. reflexivity.
  - vm_compute. reflexivity.
  - vm_compute. reflexivity.
  - vm_compute. intros H. discriminate H.
Defined.

Lemma check_authentication_refusal_sticks_witness :
  St.authenticated (state (mkPage (St.mk false (Some false) None None None)
                                  Scene.installed []))
  = Some false
  /\ Page.check_authentication
       (mkPage (St.mk false (Some false) None None None) Scene.installed [])
     = (Value false,
        mkPage (St.mk false (Some false) None None None) Scene.installed []).
Proof.
  apply (check_authentication_refusal_sticks Scene.arrival).
  reflexivity.
Defined.

Lemma check_authentication_without_token_trusts_flag_witness :
  Page.check_authentication Scene.arrival
  = (Value false,
     mkPage (St.mk false (Some false) None None None) Scene.installed []).
Proof.
  apply (check_authentication_without_token_trusts_flag Scene.arrival).
  left. reflexivity.
Defined.

Example check_authentication_flag_without_token :
  Page.check_authentication
    (mkPage (St.mk false (Some true) None None None) Scene.installed [])
  = (Value true,
     mkPage (St.mk false (Some true) None None None) Scene.installed []).
Proof. reflexivity. Qed.

Lemma login_form_opens_a_session_witness :
  fst (Page.show_login_page Demo.title (Scene.login "alice" "secret1")
                            Scene.arrival) = Rerun.
Proof.
  refine (proj1 (login_form_opens_a_session Demo.title
                   (Scene.login "alice" "secret1") Scene.arrival Scene.alice
                   _ _ _ _ _ _)).
  - reflexivity.
  - discriminate.
  - discriminate.
  - vm_compute. reflexivity.
  - reflexivity.
  - exact scene_clock_in_range.
Defined.

Lemma login_then_check_authentication_witness :
  fst (Page.check_authentication Scene.logged_in) = Value true.
Proof.
  refine (proj1 (proj1 (login_then_check_authentication Demo.title
                   (Scene.login "alice" "secret1") Scene.arrival Scene.alice
                   _ _ _ _ _ _) _)).
  - reflexivity.
  - discriminate.
  - discriminate.
  - vm_compute. reflexivity.
  - reflexivity.
  - exact scene_clock_in_range.
  - vm_compute. intros H. discriminate H.
Defined.

Lemma login_form_failures_look_alike_witness :
  Page.show_login_page Demo.title (Scene.login "bob" "secret1") Scene.arrival
  = Page.show_login_page Demo.title (Scene.login "alice" "wrongpass")
                         Scene.arrival.
Proof.
  refine (proj1 (login_form_failures_look_alike Demo.title
                   (Scene.login "bob" "secret1")
                   (Scene.login "alice" "wrongpass") Scene.arrival Scene.alice
                   _ _ _ _ _ _ _ _ _ _ _ _)).
  - reflexivity.
  - reflexivity.
  - reflexivity.
  - reflexivity.
  - reflexivity.
  - discriminate.
  - discriminate.
  - discriminate.
  - discriminate.
  - vm_compute. reflexivity.
  - vm_compute. reflexivity.
  - vm_compute. intros H. discriminate H.
Defined.

Lemma login_form_needs_both_fields_witness :
  Page.show_login_page Demo.title (Scene.login "alice" "") Scene.arrival
  = (Value tt,
     mkPage (state (with_manager Scene.arrival))
            (disk (with_manager Scene.arrival))
            (shown Scene.arrival
             ++ [Warning "⚠️ Please enter both username and password";
                 role_info "investor"])).
Proof.
  refine (proj1 (login_form_needs_both_fields Demo.title
                   (Scene.login "alice" "") Scene.arrival _ _ _)).
  - reflexivity.
  - reflexivity.
  - right. reflexivity.
Defined.

Lemma register_form_refusals_witness :
  Page.show_login_page Demo.title (Scene.signup "bob" "abc" "abc" "investee")
                       Scene.arrival
  = (Value tt,
     mkPage (state (with_manager Scene.arrival))
            (disk (with_manager Scene.arrival))
            (shown Scene.arrival
             ++ [role_info "investee";
                 Error "❌ Password must be at least 6 characters long"])).
Proof.
  refine (proj1 (proj2 (proj2 (register_form_refusals Demo.title
                   (Scene.signup "bob" "abc" "abc" "investee") Scene.arrival
                   _ _))) _ _ _ _).
  - reflexivity.
  - reflexivity.
  - discriminate.
  - discriminate.
  - reflexivity.
  - vm_compute. reflexivity.
Defined.

Lemma register_form_logs_in_witness :
  fst (Page.show_login_page Demo.title
         (Scene.signup "bob" "hunter22" "hunter22" "investee") Scene.arrival)
  = Rerun.
Proof.
  refine (proj1 (register_form_logs_in Demo.title
                   (Scene.signup "bob" "hunter22" "hunter22" "investee")
                   Scene.arrival _ _ _ _ _ _ _ _ _)).
  - reflexivity.
  - reflexivity.
  - discriminate.
  - discriminate.
  - reflexivity.
  - vm_compute. intros H. discriminate H.
  - vm_compute. reflexivity.
  - right. reflexivity.
  - exact scene_clock_in_range.
Defined.

Lemma extract_client_id_of_folder_key_witness :
  S3.extract_client_id_from_key ("INV_6384E2_20240115" +:+ "/" +:+ "report.json")
  = "INV_6384E2_20240115".
Proof.
  apply (S3Facts.extract_client_id_of_folder_key "INV_6384E2_20240115"
           "report.json").
  reflexivity.
Defined.

Lemma flat_key_is_filed_without_the_date_witness :
  S3.extract_client_id_from_key
    (registered_client_id Demo.fresh "alice" "investor" +:+ "_" +:+ "report.json")
  <> registered_client_id Demo.fresh "alice" "investor".
Proof.
  refine (proj2 (S3Facts.flat_key_is_filed_without_the_date Demo.fresh "alice"
                   "investor" "report.json" _)).
  reflexivity.
Defined.
